(** * Lazyplug: a model of drivers/soc/samsung/lazyplug.c

    The hotplug controller is embedded as pure functions over an explicit
    [state] record holding the file-scope variables of lazyplug.c together
    with the part of the kernel it talks to: the online CPU mask, the trace
    of hotplug requests, and the pending bits of its three work items.

    Unsigned 32-bit quantities are [Z] values reduced modulo [2^32] where the
    C code can wrap; CPU numbers are [nat]. *)

From Stdlib Require Import ZArith Lia.
From stdpp Require Import base decidable list gmap.

Local Open Scope Z_scope.

(** ** Platform constants that live outside lazyplug.c *)

(** [FSHIFT] (linux/sched.h), [NR_CPUS] (kernel configuration) and
    [nr_cpu_ids] (set at boot) are not defined in lazyplug.c; the model takes
    them as parameters.  The kernel guarantees [1 <= nr_cpu_ids]. *)
Record platform := Platform {
  FSHIFT : Z;
  NR_CPUS : Z;
  nr_cpu_ids : nat;
}.

(** The values of the Exynos 7870 build (eight Cortex-A53 cores). *)
Definition exynos7870 : platform :=
  {| FSHIFT := 11; NR_CPUS := 8; nr_cpu_ids := 8 |}.

(** ** Machine arithmetic *)

Definition UINT_MAX : Z := 2 ^ 32 - 1.

(** Conversion to [unsigned int]. *)
Definition u32 (x : Z) : Z := x mod 2 ^ 32.

(** [x << n] on [unsigned int], defined by C for [0 <= n < 32]. *)
Definition shl32 (x n : Z) : Z := u32 (Z.shiftl x n).

(** Conversion of an [unsigned int] value to [int] (two's complement). *)
Definition int32 (x : Z) : Z :=
  let y := u32 x in if y <? 2 ^ 31 then y else y - 2 ^ 32.

(** Conversion of an [int] to [unsigned long]; build_kernel.sh selects
    ARCH=arm64, so [unsigned long] has 64 bits. *)
Definition ulong (x : Z) : Z := x mod 2 ^ 64.

(** ** Constants of lazyplug.c *)

Definition DEF_SAMPLING_MS : Z := 132.
Definition DEF_IDLE_COUNT : Z := 19.
Definition BUSY_PERSISTENCE : Z := 3500 ÷ DEF_SAMPLING_MS.

Definition CAPACITY_RESERVE : Z := 50.
Definition THREAD_CAPACITY : Z := 520 - CAPACITY_RESERVE.
Definition MULT_FACTOR : Z := 4.
Definition DIV_FACTOR : Z := 100000.
Definition NR_FSHIFT : Z := 3.

Definition nr_run_thresholds_balance : list Z :=
  [ (THREAD_CAPACITY * 625 * MULT_FACTOR) ÷ DIV_FACTOR;
    (THREAD_CAPACITY * 875 * MULT_FACTOR) ÷ DIV_FACTOR;
    (THREAD_CAPACITY * 1125 * MULT_FACTOR) ÷ DIV_FACTOR;
    UINT_MAX ].

Definition nr_run_thresholds_performance : list Z :=
  [ (THREAD_CAPACITY * 380 * MULT_FACTOR) ÷ DIV_FACTOR;
    (THREAD_CAPACITY * 625 * MULT_FACTOR) ÷ DIV_FACTOR;
    (THREAD_CAPACITY * 875 * MULT_FACTOR) ÷ DIV_FACTOR;
    UINT_MAX ].

Definition nr_run_thresholds_conservative : list Z :=
  [ (THREAD_CAPACITY * 875 * MULT_FACTOR) ÷ DIV_FACTOR;
    (THREAD_CAPACITY * 1625 * MULT_FACTOR) ÷ DIV_FACTOR;
    (THREAD_CAPACITY * 2125 * MULT_FACTOR) ÷ DIV_FACTOR;
    UINT_MAX ].

Definition nr_run_thresholds_eco : list Z :=
  [ (THREAD_CAPACITY * 380 * MULT_FACTOR) ÷ DIV_FACTOR;
    UINT_MAX ].

Definition nr_run_thresholds_eco_extreme : list Z :=
  [ (THREAD_CAPACITY * 750 * MULT_FACTOR) ÷ DIV_FACTOR;
    UINT_MAX ].

Definition nr_run_thresholds_disable : list Z :=
  [ 0; 0; 0; UINT_MAX ].

Definition nr_run_thresholds_lazy : list Z :=
  [ (THREAD_CAPACITY * 995 * MULT_FACTOR) ÷ DIV_FACTOR;
    (THREAD_CAPACITY * 1875 * MULT_FACTOR) ÷ DIV_FACTOR;
    (THREAD_CAPACITY * 2350 * MULT_FACTOR) ÷ DIV_FACTOR;
    UINT_MAX ].

Definition nr_run_profiles : list (list Z) :=
  [ nr_run_thresholds_balance;
    nr_run_thresholds_performance;
    nr_run_thresholds_conservative;
    nr_run_thresholds_eco;
    nr_run_thresholds_eco_extreme;
    nr_run_thresholds_disable;
    nr_run_thresholds_lazy ].

Definition NR_RUN_ECO_MODE_PROFILE : Z := 3.
Definition NR_RUN_HYSTERESIS_OCTA : Z := 16.
Definition NR_RUN_HYSTERESIS_HEXA : Z := 12.
Definition NR_RUN_HYSTERESIS_QUAD : Z := 8.
Definition NR_RUN_HYSTERESIS_DUAL : Z := 4.

Definition CPU_NR_THRESHOLD : Z :=
  Z.shiftl THREAD_CAPACITY 1 + THREAD_CAPACITY ÷ 2.

(** The selector of the lazy profile, the literal 6 of
    [lazyplug_enter_lazy]. *)
Definition LAZY_PROFILE : Z := 6.

(** ** Hotplug requests *)

(** One entry per call made to the kernel's hotplug interface. *)
Inductive hotplug_cmd : Type :=
  | CpuUp (cpu : nat)
  | CpuDown (cpu : nat)
  | CpuDownNocheck (cpu : nat).

Global Instance hotplug_cmd_eq_dec : EqDecision hotplug_cmd.
Proof. solve_decision. Defined.

(** ** Controller state *)

Record state := State {
  (* module parameters *)
  lazyplug_active : Z;
  nr_run_profile_sel : Z;
  nr_possible_cores : Z;
  cpu_nr_run_threshold : Z;
  nr_run_hysteresis : Z;
  (* file-scope variables *)
  persist_count : Z;
  suspended : bool;
  cac_bool : bool;
  lazymode : bool;
  nr_fshift : Z;
  nr_run_last : Z;
  idle_count : Z;
  Lnr_run_profile_sel : Z;
  ip_info : nat -> Z;               (* per-CPU cpu_nr_running *)
  (* kernel side *)
  cpu_online_mask : gset nat;
  hotplug_log : list hotplug_cmd;   (* oldest request first *)
  work_pending : bool;              (* lazyplug_work *)
  cac_pending : bool;               (* lazyplug_cac *)
  all_up_pending : bool;            (* cpu_all_up_work *)
}.

(** Assignments to a single variable. *)

Definition set_lazyplug_active (v : Z) (s : state) : state :=
  State v (nr_run_profile_sel s) (nr_possible_cores s)
    (cpu_nr_run_threshold s) (nr_run_hysteresis s) (persist_count s)
    (suspended s) (cac_bool s) (lazymode s) (nr_fshift s) (nr_run_last s)
    (idle_count s) (Lnr_run_profile_sel s) (ip_info s) (cpu_online_mask s)
    (hotplug_log s) (work_pending s) (cac_pending s) (all_up_pending s).

Definition set_nr_run_profile_sel (v : Z) (s : state) : state :=
  State (lazyplug_active s) v (nr_possible_cores s) (cpu_nr_run_threshold s)
    (nr_run_hysteresis s) (persist_count s) (suspended s) (cac_bool s)
    (lazymode s) (nr_fshift s) (nr_run_last s) (idle_count s)
    (Lnr_run_profile_sel s) (ip_info s) (cpu_online_mask s) (hotplug_log s)
    (work_pending s) (cac_pending s) (all_up_pending s).

Definition set_nr_possible_cores (v : Z) (s : state) : state :=
  State (lazyplug_active s) (nr_run_profile_sel s) v
    (cpu_nr_run_threshold s) (nr_run_hysteresis s) (persist_count s)
    (suspended s) (cac_bool s) (lazymode s) (nr_fshift s) (nr_run_last s)
    (idle_count s) (Lnr_run_profile_sel s) (ip_info s) (cpu_online_mask s)
    (hotplug_log s) (work_pending s) (cac_pending s) (all_up_pending s).

Definition set_cpu_nr_run_threshold (v : Z) (s : state) : state :=
  State (lazyplug_active s) (nr_run_profile_sel s) (nr_possible_cores s) v
    (nr_run_hysteresis s) (persist_count s) (suspended s) (cac_bool s)
    (lazymode s) (nr_fshift s) (nr_run_last s) (idle_count s)
    (Lnr_run_profile_sel s) (ip_info s) (cpu_online_mask s) (hotplug_log s)
    (work_pending s) (cac_pending s) (all_up_pending s).

Definition set_nr_run_hysteresis (v : Z) (s : state) : state :=
  State (lazyplug_active s) (nr_run_profile_sel s) (nr_possible_cores s)
    (cpu_nr_run_threshold s) v (persist_count s) (suspended s) (cac_bool s)
    (lazymode s) (nr_fshift s) (nr_run_last s) (idle_count s)
    (Lnr_run_profile_sel s) (ip_info s) (cpu_online_mask s) (hotplug_log s)
    (work_pending s) (cac_pending s) (all_up_pending s).

Definition set_persist_count (v : Z) (s : state) : state :=
  State (lazyplug_active s) (nr_run_profile_sel s) (nr_possible_cores s)
    (cpu_nr_run_threshold s) (nr_run_hysteresis s) v (suspended s)
    (cac_bool s) (lazymode s) (nr_fshift s) (nr_run_last s) (idle_count s)
    (Lnr_run_profile_sel s) (ip_info s) (cpu_online_mask s) (hotplug_log s)
    (work_pending s) (cac_pending s) (all_up_pending s).

Definition set_suspended (v : bool) (s : state) : state :=
  State (lazyplug_active s) (nr_run_profile_sel s) (nr_possible_cores s)
    (cpu_nr_run_threshold s) (nr_run_hysteresis s) (persist_count s) v
    (cac_bool s) (lazymode s) (nr_fshift s) (nr_run_last s) (idle_count s)
    (Lnr_run_profile_sel s) (ip_info s) (cpu_online_mask s) (hotplug_log s)
    (work_pending s) (cac_pending s) (all_up_pending s).

Definition set_cac_bool (v : bool) (s : state) : state :=
  State (lazyplug_active s) (nr_run_profile_sel s) (nr_possible_cores s)
    (cpu_nr_run_threshold s) (nr_run_hysteresis s) (persist_count s)
    (suspended s) v (lazymode s) (nr_fshift s) (nr_run_last s)
    (idle_count s) (Lnr_run_profile_sel s) (ip_info s) (cpu_online_mask s)
    (hotplug_log s) (work_pending s) (cac_pending s) (all_up_pending s).

Definition set_lazymode (v : bool) (s : state) : state :=
  State (lazyplug_active s) (nr_run_profile_sel s) (nr_possible_cores s)
    (cpu_nr_run_threshold s) (nr_run_hysteresis s) (persist_count s)
    (suspended s) (cac_bool s) v (nr_fshift s) (nr_run_last s)
    (idle_count s) (Lnr_run_profile_sel s) (ip_info s) (cpu_online_mask s)
    (hotplug_log s) (work_pending s) (cac_pending s) (all_up_pending s).

Definition set_nr_fshift (v : Z) (s : state) : state :=
  State (lazyplug_active s) (nr_run_profile_sel s) (nr_possible_cores s)
    (cpu_nr_run_threshold s) (nr_run_hysteresis s) (persist_count s)
    (suspended s) (cac_bool s) (lazymode s) v (nr_run_last s) (idle_count s)
    (Lnr_run_profile_sel s) (ip_info s) (cpu_online_mask s) (hotplug_log s)
    (work_pending s) (cac_pending s) (all_up_pending s).

Definition set_nr_run_last (v : Z) (s : state) : state :=
  State (lazyplug_active s) (nr_run_profile_sel s) (nr_possible_cores s)
    (cpu_nr_run_threshold s) (nr_run_hysteresis s) (persist_count s)
    (suspended s) (cac_bool s) (lazymode s) (nr_fshift s) v (idle_count s)
    (Lnr_run_profile_sel s) (ip_info s) (cpu_online_mask s) (hotplug_log s)
    (work_pending s) (cac_pending s) (all_up_pending s).

Definition set_idle_count (v : Z) (s : state) : state :=
  State (lazyplug_active s) (nr_run_profile_sel s) (nr_possible_cores s)
    (cpu_nr_run_threshold s) (nr_run_hysteresis s) (persist_count s)
    (suspended s) (cac_bool s) (lazymode s) (nr_fshift s) (nr_run_last s) v
    (Lnr_run_profile_sel s) (ip_info s) (cpu_online_mask s) (hotplug_log s)
    (work_pending s) (cac_pending s) (all_up_pending s).

Definition set_Lnr_run_profile_sel (v : Z) (s : state) : state :=
  State (lazyplug_active s) (nr_run_profile_sel s) (nr_possible_cores s)
    (cpu_nr_run_threshold s) (nr_run_hysteresis s) (persist_count s)
    (suspended s) (cac_bool s) (lazymode s) (nr_fshift s) (nr_run_last s)
    (idle_count s) v (ip_info s) (cpu_online_mask s) (hotplug_log s)
    (work_pending s) (cac_pending s) (all_up_pending s).

Definition set_ip_info (v : nat -> Z) (s : state) : state :=
  State (lazyplug_active s) (nr_run_profile_sel s) (nr_possible_cores s)
    (cpu_nr_run_threshold s) (nr_run_hysteresis s) (persist_count s)
    (suspended s) (cac_bool s) (lazymode s) (nr_fshift s) (nr_run_last s)
    (idle_count s) (Lnr_run_profile_sel s) v (cpu_online_mask s)
    (hotplug_log s) (work_pending s) (cac_pending s) (all_up_pending s).

Definition set_cpu_online_mask (v : gset nat) (s : state) : state :=
  State (lazyplug_active s) (nr_run_profile_sel s) (nr_possible_cores s)
    (cpu_nr_run_threshold s) (nr_run_hysteresis s) (persist_count s)
    (suspended s) (cac_bool s) (lazymode s) (nr_fshift s) (nr_run_last s)
    (idle_count s) (Lnr_run_profile_sel s) (ip_info s) v (hotplug_log s)
    (work_pending s) (cac_pending s) (all_up_pending s).

Definition set_hotplug_log (v : list hotplug_cmd) (s : state) : state :=
  State (lazyplug_active s) (nr_run_profile_sel s) (nr_possible_cores s)
    (cpu_nr_run_threshold s) (nr_run_hysteresis s) (persist_count s)
    (suspended s) (cac_bool s) (lazymode s) (nr_fshift s) (nr_run_last s)
    (idle_count s) (Lnr_run_profile_sel s) (ip_info s) (cpu_online_mask s) v
    (work_pending s) (cac_pending s) (all_up_pending s).

Definition set_work_pending (v : bool) (s : state) : state :=
  State (lazyplug_active s) (nr_run_profile_sel s) (nr_possible_cores s)
    (cpu_nr_run_threshold s) (nr_run_hysteresis s) (persist_count s)
    (suspended s) (cac_bool s) (lazymode s) (nr_fshift s) (nr_run_last s)
    (idle_count s) (Lnr_run_profile_sel s) (ip_info s) (cpu_online_mask s)
    (hotplug_log s) v (cac_pending s) (all_up_pending s).

Definition set_cac_pending (v : bool) (s : state) : state :=
  State (lazyplug_active s) (nr_run_profile_sel s) (nr_possible_cores s)
    (cpu_nr_run_threshold s) (nr_run_hysteresis s) (persist_count s)
    (suspended s) (cac_bool s) (lazymode s) (nr_fshift s) (nr_run_last s)
    (idle_count s) (Lnr_run_profile_sel s) (ip_info s) (cpu_online_mask s)
    (hotplug_log s) (work_pending s) v (all_up_pending s).

Definition set_all_up_pending (v : bool) (s : state) : state :=
  State (lazyplug_active s) (nr_run_profile_sel s) (nr_possible_cores s)
    (cpu_nr_run_threshold s) (nr_run_hysteresis s) (persist_count s)
    (suspended s) (cac_bool s) (lazymode s) (nr_fshift s) (nr_run_last s)
    (idle_count s) (Lnr_run_profile_sel s) (ip_info s) (cpu_online_mask s)
    (hotplug_log s) (work_pending s) (cac_pending s) v.

(** ** The kernel's hotplug interface *)

(** Modelled from the spec: [cpu_up], [cpu_down] and [cpu_down_nocheck] are
    kernel functions outside lazyplug.c (the spec's [PowerControl]
    capability).  Every call is appended to [hotplug_log]; the online mask
    follows the request, a CPU that does not exist (number at or beyond
    [nr_cpu_ids]) staying offline. *)
Definition cpu_up (hw : platform) (cpu : nat) (s : state) : state :=
  let s := set_hotplug_log (hotplug_log s ++ [CpuUp cpu]) s in
  if bool_decide (cpu < nr_cpu_ids hw)%nat
  then set_cpu_online_mask (cpu_online_mask s ∪ {[cpu]}) s
  else s.

Definition cpu_down (cpu : nat) (s : state) : state :=
  set_cpu_online_mask (cpu_online_mask s ∖ {[cpu]})
    (set_hotplug_log (hotplug_log s ++ [CpuDown cpu]) s).

Definition cpu_down_nocheck (cpu : nat) (s : state) : state :=
  set_cpu_online_mask (cpu_online_mask s ∖ {[cpu]})
    (set_hotplug_log (hotplug_log s ++ [CpuDownNocheck cpu]) s).

Definition cpu_online (cpu : nat) (s : state) : bool :=
  bool_decide (cpu ∈ cpu_online_mask s).

Definition num_online_cpus (s : state) : Z :=
  Z.of_nat (size (cpu_online_mask s)).

(** The CPU numbers visited by [for (cpu = hi; cpu >= lo; cpu--)] and by
    [for (cpu = lo; cpu <= hi; cpu++)], for [1 <= lo]. *)
Definition cpus_up_to (lo hi : nat) : list nat := seq lo (hi + 1 - lo).
Definition cpus_down_to (hi lo : nat) : list nat := reverse (cpus_up_to lo hi).

(** ** cpu_all_ctrl *)

Definition cpu_all_ctrl (hw : platform) (online : bool) (s : state) : state :=
  if online then
    if lazymode s then
      (* Mess around with the first cluster only *)
      foldl (fun s cpu => cpu_up hw cpu s) s (cpus_up_to 1 3)
    else
      foldl (fun s cpu => cpu_up hw cpu s) s
        (cpus_up_to 1 (nr_cpu_ids hw - 1))
  else
    (* kill from the bigger ones *)
    foldl (fun s cpu => cpu_down cpu s) s (cpus_down_to (nr_cpu_ids hw - 1) 2).

(** ** calculate_thread_stats *)

(** [ARRAY_SIZE] of the table the selector's family is sized by. *)
Definition threshold_size (sel : Z) : Z :=
  if NR_RUN_ECO_MODE_PROFILE <=? sel
  then Z.of_nat (length nr_run_thresholds_eco)
  else Z.of_nat (length nr_run_thresholds_balance).

(** [current_profile[i]]; a selector past the seven tables, or an index past
    the table, is an out-of-bounds read in C and yields 0 here. *)
Definition profile_entry (sel : Z) (i : Z) : Z :=
  match nr_run_profiles !! Z.to_nat sel with
  | Some current_profile => default 0 (current_profile !! Z.to_nat i)
  | None => 0
  end.

(** The [for (nr_run = 1; nr_run < threshold_size; nr_run++)] loop with [n]
    iterations left, at loop variable [nr_run]. *)
Fixpoint thread_stats_loop (hw : platform) (s : state) (avg_nr_run : Z)
    (n : nat) (nr_run : Z) : Z :=
  match n with
  | O => nr_run
  | S n' =>
      let nr_threshold := profile_entry (nr_run_profile_sel s) (nr_run - 1) in
      let nr_threshold :=
        if nr_run_last s <=? nr_run
        then u32 (nr_threshold + nr_run_hysteresis s)
        else nr_threshold in
      if avg_nr_run <=? shl32 nr_threshold (FSHIFT hw - nr_fshift s)
      then nr_run
      else thread_stats_loop hw s avg_nr_run n' (nr_run + 1)
  end.

(** [Lavg_nr_running] is the value returned by [Lavg_nr_running()]. *)
Definition calculate_thread_stats (hw : platform) (Lavg_nr_running : Z)
    (s : state) : Z * state :=
  let avg_nr_run := u32 Lavg_nr_running in
  let s :=
    if NR_RUN_ECO_MODE_PROFILE <=? nr_run_profile_sel s
    then set_nr_fshift 1 s
    else set_nr_fshift 3 s in
  let nr_run :=
    thread_stats_loop hw s avg_nr_run
      (Z.to_nat (threshold_size (nr_run_profile_sel s) - 1)) 1 in
  (nr_run, set_nr_run_last nr_run s).

(** ** update_per_cpu_stat, unplug_cpu, set_cpus *)

(** [Lavg_cpu_nr_running cpu] is the value of [Lavg_cpu_nr_running(cpu)]. *)
Definition update_per_cpu_stat (Lavg_cpu_nr_running : nat -> Z) (s : state)
    : state :=
  set_ip_info
    (fun cpu => if cpu_online cpu s then Lavg_cpu_nr_running cpu
                else ip_info s cpu) s.

(** [cpu_nr_run_threshold << 1 / (num_online_cpus())]: division binds
    tighter than the shift in C, and the result is stored in an [int]. *)
Definition l_nr_threshold (s : state) : Z :=
  int32 (shl32 (cpu_nr_run_threshold s) (1 / num_online_cpus s)).

Definition unplug_cpu (hw : platform) (min_active_cpu : Z) (s : state)
    : state :=
  foldl
    (fun s cpu =>
       if negb (cpu_online cpu s) then s
       else
         if u32 min_active_cpu <? Z.of_nat cpu then
           if ip_info s cpu <? ulong (l_nr_threshold s)
           then cpu_down cpu s
           else s
         else s)
    s (cpus_down_to (nr_cpu_ids hw - 1) 1).

Definition set_cpus (hw : platform) (s : state) : state :=
  foldl
    (fun s cpu =>
       if negb (cpu_online cpu s) then s
       else if nr_possible_cores s <=? Z.of_nat cpu then cpu_down cpu s
       else s)
    s (cpus_down_to (nr_cpu_ids hw - 1) 1).

(** ** Work items *)

(** [queue_delayed_work] and [schedule_work] mark the work item pending; a
    work item that is already pending is not queued twice.  The delay is not
    modelled: a pending work item runs at some later step. *)
Definition queue_lazyplug_work (s : state) : state := set_work_pending true s.
Definition queue_lazyplug_cac (s : state) : state := set_cac_pending true s.
Definition schedule_cpu_all_up_work (s : state) : state :=
  set_all_up_pending true s.

Definition lazyplug_cac_fn (hw : platform) (s : state) : state :=
  cpu_all_ctrl hw (cac_bool s) s.

Definition cpu_all_up (hw : platform) (s : state) : state :=
  cpu_all_ctrl hw true s.

(** The six [cpu_down] calls of the idle branch: 7, 6, 5, 4, 3, 2. *)
Definition idle_shutdown : list nat := [7; 6; 5; 4; 3; 2]%nat.

(** ** lazyplug_work_fn: the periodic tick *)

(** Lines 331-341: the tier is computed, the per-CPU statistics are
    refreshed and the cap [nr_possible_cores] is enforced.  The local
    [old_nr] is initialised to [NR_CPUS] on every call (its final assignment
    is dead). *)
Definition work_fn_sample (hw : platform) (Lavg_nr_running : Z)
    (Lavg_cpu_nr_running : nat -> Z) (s : state) : Z * state :=
  let old_nr := u32 (NR_CPUS hw) in
  let '(nr_run_stat, s) := calculate_thread_stats hw Lavg_nr_running s in
  let s := update_per_cpu_stat Lavg_cpu_nr_running s in
  let cpu_count := nr_run_stat in
  let s := if nr_possible_cores s <? old_nr then set_cpus hw s else s in
  (cpu_count, s).

(** Lines 343-385: the [if (!suspended)] block. *)
Definition work_fn_decision (hw : platform) (cpu_count : Z) (s : state)
    : state :=
  if negb (suspended s) then
    let s :=
      if 0 <? persist_count s
      then set_persist_count (persist_count s - 1) s
      else s in
    if cpu_count =? 1 then
      (* start counting idle states *)
      let s :=
        if idle_count s <? DEF_IDLE_COUNT
        then set_idle_count (idle_count s + 1) s
        else s in
      if (idle_count s =? DEF_IDLE_COUNT) && (persist_count s =? 0) then
        (* take down all cpu except CPU0 and CPU1 *)
        foldl (fun s cpu => cpu_down cpu s) s idle_shutdown
      else s
    else
      cpu_all_ctrl hw true (set_idle_count 0 s)
  else s.

Definition lazyplug_work_fn (hw : platform) (Lavg_nr_running : Z)
    (Lavg_cpu_nr_running : nat -> Z) (s : state) : state :=
  let s :=
    if negb (lazyplug_active s =? 0) then
      let '(cpu_count, s) :=
        work_fn_sample hw Lavg_nr_running Lavg_cpu_nr_running s in
      work_fn_decision hw cpu_count s
    else s in
  queue_lazyplug_work s.

(** ** Suspend, resume and lazy mode *)

(** [flush_workqueue] only waits for work that is already running or queued;
    in this model such work is a separate step taken before the suspend, so
    the call leaves the state unchanged. *)
Definition lazyplug_suspend (s : state) : state :=
  if negb (lazyplug_active s =? 0) then
    let s := set_suspended true s in
    (* put rest of the cores to sleep unconditionally! *)
    let s := set_cac_bool false s in
    queue_lazyplug_cac s
  else s.

Definition lazyplug_resume (s : state) : state :=
  let s :=
    if negb (lazyplug_active s =? 0) then
      (* keep cores awake long enough for faster wake up *)
      let s := set_persist_count BUSY_PERSISTENCE s in
      let s := set_suspended false s in
      let s := schedule_cpu_all_up_work s in
      let s := set_cac_bool true s in
      queue_lazyplug_cac s
    else s in
  queue_lazyplug_work s.

Definition lazyplug_enter_lazy (enter : bool) (s : state) : state :=
  if enter && negb (lazymode s) then
    let s := set_Lnr_run_profile_sel (nr_run_profile_sel s) s in
    let s := set_nr_run_profile_sel LAZY_PROFILE s in
    let s := set_lazymode true s in
    (* take down all cpu except for CPU0 and CPU1 *)
    foldl (fun s cpu => cpu_down_nocheck cpu s) s idle_shutdown
  else if negb enter && lazymode s then
    let s := set_nr_run_profile_sel (Lnr_run_profile_sel s) s in
    let s := set_lazymode false s in
    let s := set_cac_bool true s in
    queue_lazyplug_cac s
  else s.

(** The framebuffer blank codes [fb_state_change] distinguishes. *)
Inductive fb_blank : Type :=
  | FB_BLANK_UNBLANK
  | FB_BLANK_POWERDOWN
  | FB_BLANK_OTHER.

Definition fb_state_change (blank : fb_blank) (s : state) : state :=
  match blank with
  | FB_BLANK_POWERDOWN => lazyplug_suspend s
  | FB_BLANK_UNBLANK => lazyplug_resume (set_idle_count 0 s)
  | FB_BLANK_OTHER => s
  end.

(** ** lazyplug_init *)

(** The variables as their initialisers leave them, with [online] the CPUs
    that are up when the late initcall runs. *)
Definition boot_state (hw : platform) (online : gset nat) : state :=
  {| lazyplug_active := 1;
     nr_run_profile_sel := 0;
     nr_possible_cores := u32 (NR_CPUS hw);
     cpu_nr_run_threshold := CPU_NR_THRESHOLD;
     nr_run_hysteresis := NR_RUN_HYSTERESIS_OCTA;
     persist_count := 0;
     suspended := false;
     cac_bool := true;
     lazymode := false;
     nr_fshift := NR_FSHIFT;
     nr_run_last := 0;
     idle_count := 0;
     Lnr_run_profile_sel := 0;
     ip_info := fun _ => 0;
     cpu_online_mask := online;
     hotplug_log := [];
     work_pending := false;
     cac_pending := false;
     all_up_pending := false |}.

Definition lazyplug_init (s : state) : state :=
  let s :=
    if 6 <? nr_possible_cores s then
      set_nr_run_profile_sel 0 (set_nr_run_hysteresis NR_RUN_HYSTERESIS_OCTA s)
    else if 4 <? nr_possible_cores s then
      set_nr_run_profile_sel 0 (set_nr_run_hysteresis NR_RUN_HYSTERESIS_HEXA s)
    else if 2 <? nr_possible_cores s then
      set_nr_run_profile_sel 0 (set_nr_run_hysteresis NR_RUN_HYSTERESIS_QUAD s)
    else
      set_nr_run_profile_sel NR_RUN_ECO_MODE_PROFILE
        (set_nr_run_hysteresis NR_RUN_HYSTERESIS_DUAL s) in
  queue_lazyplug_work s.

(** ** Module parameters *)

Inductive param : Type :=
  | P_lazyplug_active
  | P_nr_run_profile_sel
  | P_nr_possible_cores
  | P_cpu_nr_run_threshold
  | P_nr_run_hysteresis.

(** A write through [module_param(..., uint, ...)]: a value that is not an
    [unsigned int] is rejected and the variable keeps its value. *)
Definition module_param_set (p : param) (v : Z) (s : state) : state :=
  if (0 <=? v) && (v <=? UINT_MAX) then
    match p with
    | P_lazyplug_active => set_lazyplug_active v s
    | P_nr_run_profile_sel => set_nr_run_profile_sel v s
    | P_nr_possible_cores => set_nr_possible_cores v s
    | P_cpu_nr_run_threshold => set_cpu_nr_run_threshold v s
    | P_nr_run_hysteresis => set_nr_run_hysteresis v s
    end
  else s.

(** ** Steps of the whole driver *)

(** Each entry point is one atomic step: the framebuffer notifier, the
    lazy-mode call, a run of one of the three work items, or a write to a
    module parameter.  Interleavings inside an entry point are not
    modelled. *)
Inductive event : Type :=
  | EvFb (blank : fb_blank)
  | EvEnterLazy (enter : bool)
  | EvWork (Lavg_nr_running : Z) (Lavg_cpu_nr_running : nat -> Z)
  | EvCac
  | EvAllUp
  | EvParam (p : param) (v : Z).

Definition step (hw : platform) (e : event) (s : state) : state :=
  match e with
  | EvFb blank => fb_state_change blank s
  | EvEnterLazy enter => lazyplug_enter_lazy enter s
  | EvWork avg cpu_avg =>
      if work_pending s
      then lazyplug_work_fn hw avg cpu_avg (set_work_pending false s)
      else s
  | EvCac =>
      if cac_pending s
      then lazyplug_cac_fn hw (set_cac_pending false s)
      else s
  | EvAllUp =>
      if all_up_pending s
      then cpu_all_up hw (set_all_up_pending false s)
      else s
  | EvParam p v => module_param_set p v s
  end.

Definition run (hw : platform) (es : list event) (s : state) : state :=
  foldl (fun s e => step hw e s) s es.

(** Consecutive runs of the tick, one load sample per run. *)
Definition ticks (hw : platform) (samples : list (Z * (nat -> Z)))
    (s : state) : state :=
  foldl (fun s i => lazyplug_work_fn hw i.1 i.2 s) s samples.

(** States the driver can be in: any sequence of steps after
    [lazyplug_init]. *)
Definition reachable (hw : platform) (s : state) : Prop :=
  exists online es, s = run hw es (lazyplug_init (boot_state hw online)).

(** The requests an operation added to the log of [s], given the state [s']
    it produced. *)
Definition issued (s s' : state) : list hotplug_cmd :=
  drop (length (hotplug_log s)) (hotplug_log s').

(** The tier the evaluator returns, without the state update. *)
Definition evaluate (hw : platform) (Lavg_nr_running : Z) (s : state) : Z :=
  (calculate_thread_stats hw Lavg_nr_running s).1.

(** ** Quantities used to state the properties *)

(** The shift [FSHIFT - nr_fshift] the evaluator applies for a selector. *)
Definition scan_shift (hw : platform) (sel : Z) : Z :=
  FSHIFT hw - (if NR_RUN_ECO_MODE_PROFILE <=? sel then 1 else 3).

(** The scaled threshold the loop compares the sample with when it tests
    tier [j], written out: table entry [j - 1], plus the hysteresis when
    [last <= j], shifted. *)
Definition tested_threshold (hw : platform) (sel hyst last j : Z) : Z :=
  shl32
    (if last <=? j
     then u32 (profile_entry sel (j - 1) + hyst)
     else profile_entry sel (j - 1))
    (scan_shift hw sel).

(** The number of entries of a profile's table, sentinel included: the tiers
    the table describes. *)
Definition profile_tiers (sel : Z) : Z :=
  match nr_run_profiles !! Z.to_nat sel with
  | Some current_profile => Z.of_nat (length current_profile)
  | None => 0
  end.

(** The tier lookup as the specification words it (section 4.1): the
    hysteresis is added when the previous tier is greater than or equal to
    the tier being tested.  Tiers are numbered from 1 as in the code. *)
Definition spec_hysteresisAdjustment (hyst previousTier t : Z) : Z :=
  if t <=? previousTier then hyst else 0.

Fixpoint spec_lookup_loop (hw : platform) (sel hyst previousTier sample : Z)
    (n : nat) (t : Z) : Z :=
  match n with
  | O => t
  | S n' =>
      if sample <=?
         shl32 (u32 (profile_entry sel (t - 1)
                     + spec_hysteresisAdjustment hyst previousTier t))
           (scan_shift hw sel)
      then t
      else spec_lookup_loop hw sel hyst previousTier sample n' (t + 1)
  end.

Definition spec_evaluate (hw : platform) (sample : Z) (s : state) : Z :=
  spec_lookup_loop hw (nr_run_profile_sel s) (nr_run_hysteresis s)
    (nr_run_last s) (u32 sample)
    (Z.to_nat (threshold_size (nr_run_profile_sel s) - 1)) 1.

(** The threshold in the spec's reading of [unplug_cpu]: the base threshold
    doubled, then divided by the number of online CPUs. *)
Definition spec_unplug_threshold (s : state) : Z :=
  (cpu_nr_run_threshold s * 2) / num_online_cpus s.

(** A state of the Exynos 7870 right after [lazyplug_init], all eight CPUs
    online. *)
Definition exynos_init : state :=
  lazyplug_init (boot_state exynos7870 (list_to_set (seq 0 8))).

(** Every sample of a run of ticks is placed in the lowest tier by the
    evaluator, in the state the tick finds. *)
Fixpoint lowest_tier_run (hw : platform) (samples : list (Z * (nat -> Z)))
    (s : state) : Prop :=
  match samples with
  | [] => True
  | i :: rest =>
      evaluate hw i.1 s = 1
      /\ lowest_tier_run hw rest (lazyplug_work_fn hw i.1 i.2 s)
  end.

(** [s'] differs from [s] in the online mask and the request log only. *)
Definition hotplug_only (s s' : state) : Prop :=
  s' = set_cpu_online_mask (cpu_online_mask s')
         (set_hotplug_log (hotplug_log s') s).

(** Runs of the three work items: what the work queues may execute between
    two calls into the driver. *)
Definition is_work_run (e : event) : bool :=
  match e with
  | EvWork _ _ | EvCac | EvAllUp => true
  | _ => false
  end.

(** [s'] agrees with [s] on every variable of the controller other than the
    evaluator's scratch state ([nr_fshift], [nr_run_last], [ip_info]), the
    online mask and the request log. *)
Definition same_control (s s' : state) : Prop :=
  lazyplug_active s' = lazyplug_active s
  /\ nr_run_profile_sel s' = nr_run_profile_sel s
  /\ nr_possible_cores s' = nr_possible_cores s
  /\ cpu_nr_run_threshold s' = cpu_nr_run_threshold s
  /\ nr_run_hysteresis s' = nr_run_hysteresis s
  /\ persist_count s' = persist_count s
  /\ suspended s' = suspended s
  /\ cac_bool s' = cac_bool s
  /\ lazymode s' = lazymode s
  /\ idle_count s' = idle_count s
  /\ Lnr_run_profile_sel s' = Lnr_run_profile_sel s
  /\ work_pending s' = work_pending s
  /\ cac_pending s' = cac_pending s
  /\ all_up_pending s' = all_up_pending s.

(** The CPUs [cpu_all_ctrl(true)] requests online. *)
Definition scale_up_cpus (hw : platform) (s : state) : list nat :=
  if lazymode s then cpus_up_to 1 3 else cpus_up_to 1 (nr_cpu_ids hw - 1).

(** The steps that call [cpu_all_ctrl(true)], with the condition under
    which they do. *)
Definition scale_up_source (e : event) (s : state) : Prop :=
  match e with
  | EvAllUp => all_up_pending s = true
  | EvCac => cac_pending s = true /\ cac_bool s = true
  | EvWork _ _ =>
      work_pending s = true /\ suspended s = false /\ lazyplug_active s <> 0
  | _ => False
  end.

(** Steps other than the calls of [lazyplug_enter_lazy]. *)
Definition keeps_lazymode (e : event) : bool :=
  match e with
  | EvEnterLazy _ => false
  | _ => true
  end.

(** The CPU a request names. *)
Definition cmd_cpu (c : hotplug_cmd) : nat :=
  match c with
  | CpuUp cpu | CpuDown cpu | CpuDownNocheck cpu => cpu
  end.

(** The CPUs [set_cpus] finds online at or above [nr_possible_cores], in
    the order of its loop. *)
Definition capped_cpus (hw : platform) (s : state) : list nat :=
  List.filter
    (fun cpu => cpu_online cpu s && (nr_possible_cores s <=? Z.of_nat cpu))
    (cpus_down_to (nr_cpu_ids hw - 1) 1).

(** What the decision block of the tick requests, by its branches. *)
Definition decision_requests (hw : platform) (cpu_count : Z) (s : state)
    : list hotplug_cmd :=
  let pc' :=
    if 0 <? persist_count s then persist_count s - 1 else persist_count s in
  let idle' :=
    if idle_count s <? DEF_IDLE_COUNT then idle_count s + 1
    else idle_count s in
  if suspended s then []
  else if cpu_count =? 1 then
    if (idle' =? DEF_IDLE_COUNT) && (pc' =? 0)
    then CpuDown <$> idle_shutdown else []
  else CpuUp <$> scale_up_cpus hw s.

(** Steps that do not write a selector outside the seven profiles. *)
Definition valid_selector_write (e : event) : bool :=
  match e with
  | EvParam P_nr_run_profile_sel v => v <? 7
  | _ => true
  end.

(** A list of CPU numbers that decreases strictly, as the CPUs a
    [for (cpu = hi; cpu > 0; cpu--)] loop visits. *)
Fixpoint descending (l : list nat) : Prop :=
  match l with
  | [] => True
  | cpu :: rest => Forall (fun c => (c < cpu)%nat) rest /\ descending rest
  end.

(** [num_online_cpus()] when the loop of [unplug_cpu] reaches [cpu], given
    the CPUs [downed] the call takes offline: the CPUs online at the call
    less the ones above [cpu] among them, the loop running from the highest
    CPU down. *)
Definition online_when_reached (s : state) (downed : list nat) (cpu : nat)
    : Z :=
  num_online_cpus s
  - Z.of_nat (length (List.filter (fun c => (cpu <? c)%nat) downed)).

(** The display notifier and the tick: the entry points gated by
    [lazyplug_active]. *)
Definition gated_by_active (e : event) : bool :=
  match e with
  | EvFb _ | EvWork _ _ => true
  | _ => false
  end.

(** * Properties *)

(** ** Machine arithmetic *)

Lemma u32_range x : 0 <= u32 x < 2 ^ 32.
Proof. unfold u32. apply Z.mod_pos_bound. lia. Qed.

Lemma u32_small x : 0 <= x < 2 ^ 32 -> u32 x = x.
Proof. intros H. unfold u32. now apply Z.mod_small. Qed.

Lemma shl32_range x n : 0 <= shl32 x n < 2 ^ 32.
Proof. apply u32_range. Qed.

Lemma shl32_small x n :
  0 <= n -> 0 <= x -> x * 2 ^ n < 2 ^ 32 -> shl32 x n = x * 2 ^ n.
Proof.
  intros Hn Hx Hb. unfold shl32. rewrite Z.shiftl_mul_pow2 by lia.
  apply u32_small. nia.
Qed.

(** ** The evaluator *)

Section Evaluator.
Context (hw : platform).

(** The loop stops at the first tier whose tested threshold is not below
    the sample, or runs out at its bound. *)
Lemma thread_stats_loop_spec s avg n nr_run :
  let T j :=
    shl32
      (if nr_run_last s <=? j
       then u32 (profile_entry (nr_run_profile_sel s) (j - 1)
                 + nr_run_hysteresis s)
       else profile_entry (nr_run_profile_sel s) (j - 1))
      (FSHIFT hw - nr_fshift s) in
  let r := thread_stats_loop hw s avg n nr_run in
  nr_run <= r <= nr_run + Z.of_nat n
  /\ (forall j, nr_run <= j < r -> T j < avg)
  /\ (r < nr_run + Z.of_nat n -> avg <= T r).
Proof.
  intros T. revert nr_run. induction n as [|n IH]; intros nr_run r.
  - subst r; simpl. repeat split; lia.
  - subst r. cbn [thread_stats_loop]. fold (T nr_run).
    destruct (Z.leb_spec avg (T nr_run)) as [Hle|Hgt].
    + repeat split; lia.
    + destruct (IH (nr_run + 1)) as (Hr & Hlow & Hhit).
      split; [lia|]. split.
      * intros j Hj. destruct (Z.eq_dec j nr_run) as [->|Hne]; [lia|].
        apply Hlow. lia.
      * intros Hlt. apply Hhit. lia.
Qed.

Lemma threshold_size_cases sel :
  threshold_size sel = (if NR_RUN_ECO_MODE_PROFILE <=? sel then 2 else 4).
Proof. unfold threshold_size. now destruct (_ <=? _). Qed.

(** [evaluate] in terms of the written-out thresholds. *)
Lemma evaluate_spec avg s :
  let sel := nr_run_profile_sel s in
  let T := tested_threshold hw sel (nr_run_hysteresis s) (nr_run_last s) in
  let r := evaluate hw avg s in
  1 <= r <= threshold_size sel
  /\ (forall j, 1 <= j < r -> T j < u32 avg)
  /\ (r < threshold_size sel -> u32 avg <= T r).
Proof.
  intros sel T r. subst r T sel.
  unfold evaluate, calculate_thread_stats, tested_threshold, scan_shift.
  cbn [fst].
  pose proof (threshold_size_cases (nr_run_profile_sel s)) as Hsz.
  destruct (NR_RUN_ECO_MODE_PROFILE <=? nr_run_profile_sel s) eqn:Hfam;
    match goal with
    | |- context [thread_stats_loop hw ?s' ?a ?n 1] =>
        pose proof (thread_stats_loop_spec s' a n 1) as H
    end;
    cbn [nr_run_last nr_run_profile_sel nr_run_hysteresis nr_fshift
         set_nr_fshift] in *;
    rewrite Hsz in *; cbn -[thread_stats_loop] in H;
    destruct H as (Hr & Hlow & Hhit);
    (split; [lia|split; [exact Hlow|intros; apply Hhit; lia]]).
Qed.

(** A tier [k] inside the scanned range whose threshold admits the sample,
    all lower tiers rejecting it, is the tier returned. *)
Lemma evaluate_unique avg s k :
  let sel := nr_run_profile_sel s in
  let T := tested_threshold hw sel (nr_run_hysteresis s) (nr_run_last s) in
  1 <= k < threshold_size sel ->
  u32 avg <= T k ->
  (forall j, 1 <= j < k -> T j < u32 avg) ->
  evaluate hw avg s = k.
Proof.
  intros sel T Hk Hhit Hlow.
  destruct (evaluate_spec avg s) as (Hr & Hl & Hh). fold sel T in Hr, Hl, Hh.
  destruct (Z.lt_trichotomy (evaluate hw avg s) k) as [Hlt|[Heq|Hgt]];
    [|exact Heq|].
  - specialize (Hh ltac:(lia)).
    specialize (Hlow (evaluate hw avg s) ltac:(lia)). lia.
  - specialize (Hl k ltac:(lia)). lia.
Qed.

(** A sample above every tested threshold runs the loop to its bound. *)
Lemma evaluate_top avg s :
  let sel := nr_run_profile_sel s in
  let T := tested_threshold hw sel (nr_run_hysteresis s) (nr_run_last s) in
  (forall j, 1 <= j < threshold_size sel -> T j < u32 avg) ->
  evaluate hw avg s = threshold_size sel.
Proof.
  intros sel T Hall.
  destruct (evaluate_spec avg s) as (Hr & Hl & Hh). fold sel T in Hr, Hl, Hh.
  destruct (Z.eq_dec (evaluate hw avg s) (threshold_size sel)) as [E|NE];
    [exact E|].
  specialize (Hh ltac:(lia)).
  specialize (Hall (evaluate hw avg s) ltac:(lia)). lia.
Qed.

End Evaluator.

(** Case split of an integer known to lie in a literal range. *)
Ltac split_range x :=
  repeat match goal with
  | H : ?a <= x < ?b |- _ =>
      first
        [ exfalso; lia
        | destruct (Z.eq_dec x a) as [->|?];
          [ clear H
          | let a' := eval vm_compute in (a + 1) in
            assert (a' <= x < b) by lia; clear H ] ]
  end.

Lemma profile_entry_range sel i : 0 <= profile_entry sel i < 2 ^ 32.
Proof.
  unfold profile_entry.
  destruct (nr_run_profiles !! Z.to_nat sel) as [p|] eqn:Hp; [|lia].
  destruct (p !! Z.to_nat i) as [x|] eqn:Hx; cbn [default]; [|lia].
  apply list_elem_of_lookup_2 in Hp, Hx.
  unfold nr_run_profiles in Hp.
  repeat (apply elem_of_cons in Hp as [->|Hp]);
    [repeat (apply elem_of_cons in Hx as [->|Hx]);
     [vm_compute; split; congruence ..|apply elem_of_nil in Hx; contradiction]
     ..|apply elem_of_nil in Hp; contradiction].
Qed.

(** The entries the loop reads for a valid selector increase strictly. *)
Lemma profile_entry_mono sel j k :
  0 <= sel < 7 -> 1 <= j -> j < k -> k < threshold_size sel ->
  profile_entry sel (j - 1) < profile_entry sel (k - 1).
Proof.
  intros Hsel Hj Hjk Hk.
  split_range sel; rewrite threshold_size_cases in Hk; cbn in Hk;
    try lia;
    assert (Hk' : 2 <= k < 4) by lia; clear Hk; split_range k;
    assert (Hj' : 1 <= j < 3) by lia; clear Hj; split_range j;
    try lia; vm_compute; reflexivity.
Qed.

(** C2 (amended).  In the tier lookup of [calculate_thread_stats] the
    hysteresis constant is added to the threshold of the tier being tested
    exactly when the previous tier [nr_run_last] is less than or equal to
    that tier: the evaluator returns the first tier [r] of the scan whose
    threshold, so adjusted and then shifted, is not below the sample, every
    earlier tier's being below it.  In particular, when the previous tier
    equals the tier returned, the threshold that admitted the sample
    includes the hysteresis. *)
Theorem C2_hysteresis_added_when_last_le_tested hw avg s :
  let sel := nr_run_profile_sel s in
  let hyst := nr_run_hysteresis s in
  let last := nr_run_last s in
  let adjusted j :=
    if last <=? j
    then u32 (profile_entry sel (j - 1) + hyst)
    else profile_entry sel (j - 1) in
  let r := evaluate hw avg s in
  1 <= r <= threshold_size sel
  /\ (forall j, 1 <= j < r ->
        shl32 (adjusted j) (scan_shift hw sel) < u32 avg)
  /\ (r < threshold_size sel ->
        u32 avg <= shl32 (adjusted r) (scan_shift hw sel))
  /\ (last = r -> adjusted r = u32 (profile_entry sel (r - 1) + hyst)).
Proof.
  intros sel hyst last adjusted r.
  destruct (evaluate_spec hw avg s) as (Hr & Hlow & Hhit).
  split; [exact Hr|]. split; [exact Hlow|]. split; [exact Hhit|].
  intros Heq. unfold adjusted. rewrite Heq, Z.leb_refl. reflexivity.
Qed.

(** C2, the claim as worded, fails.  On the balanced profile with hysteresis
    16 and previous tier 2, the threshold tested for tier 1 is the bare
    entry 11 although 2 >= 1, and the sample 3072 (12 << 8) is placed in
    tier 2 where the spec's wording places it in tier 1.  With previous tier
    1 the same sample stays in tier 1 although it exceeds the unadjusted
    boundary 11 << 8: the adjustment is applied when the previous tier
    equals the result. *)
Lemma C2_counterexample :
  let s2 := set_nr_run_last 2 exynos_init in
  let s1 := set_nr_run_last 1 exynos_init in
  tested_threshold exynos7870 0 16 2 1 = Z.shiftl 11 8
  /\ evaluate exynos7870 3072 s2 = 2
  /\ spec_evaluate exynos7870 3072 s2 = 1
  /\ evaluate exynos7870 3072 s1 = 1
  /\ Z.shiftl (profile_entry 0 0) 8 < 3072.
Proof. vm_compute. repeat split. Qed.

(** C7 (amended).  For every selector, previous tier and hysteresis, a load
    sample of 0 makes the evaluator return the lowest tier, 1; a sample
    above every threshold the scan tests (scaled, hysteresis included) makes
    it return the bound of the scan, [threshold_size]: 4 for the selectors
    below [NR_RUN_ECO_MODE_PROFILE] and 2 for the others.  That bound is the
    number of tiers of the profile's own table for the selectors 0 to 4. *)
Theorem C7_zero_is_lowest_and_scan_bound_is_top hw avg s :
  let sel := nr_run_profile_sel s in
  let T := tested_threshold hw sel (nr_run_hysteresis s) (nr_run_last s) in
  evaluate hw 0 s = 1
  /\ ((forall j, 1 <= j < threshold_size sel -> T j < u32 avg) ->
      evaluate hw avg s = threshold_size sel)
  /\ threshold_size sel = (if NR_RUN_ECO_MODE_PROFILE <=? sel then 2 else 4)
  /\ (0 <= sel < 5 -> threshold_size sel = profile_tiers sel).
Proof.
  intros sel T. split; [|split; [|split]].
  - destruct (evaluate_spec hw 0 s) as (Hr & Hlow & _).
    destruct (Z.eq_dec (evaluate hw 0 s) 1) as [E|NE]; [exact E|].
    specialize (Hlow 1 ltac:(lia)).
    pose proof (shl32_range
      (if nr_run_last s <=? 1
       then u32 (profile_entry (nr_run_profile_sel s) (1 - 1)
                 + nr_run_hysteresis s)
       else profile_entry (nr_run_profile_sel s) (1 - 1))
      (scan_shift hw (nr_run_profile_sel s))) as Hnn.
    unfold tested_threshold in Hlow. change (u32 0) with 0 in Hlow. lia.
  - apply evaluate_top.
  - apply threshold_size_cases.
  - intros Hsel. split_range sel; reflexivity.
Qed.

(** C7, the claim as worded, fails on the lazy profile: its table has four
    tiers (18, 35, 44 and the sentinel), the sample [UINT_MAX] exceeds every
    finite threshold of it after scaling and hysteresis, and the evaluator
    returns 2. *)
Lemma C7_counterexample :
  let s := set_nr_run_profile_sel LAZY_PROFILE exynos_init in
  profile_tiers LAZY_PROFILE = 4
  /\ tested_threshold exynos7870 LAZY_PROFILE 16 0 1 < UINT_MAX
  /\ tested_threshold exynos7870 LAZY_PROFILE 16 0 2 < UINT_MAX
  /\ tested_threshold exynos7870 LAZY_PROFILE 16 0 3 < UINT_MAX
  /\ evaluate exynos7870 UINT_MAX s = 2.
Proof. vm_compute. repeat split. Qed.

(** C8 (amended).  For every valid selector (0 to 6) and every tier [k] of
    its scan ([1 <= k < threshold_size], tiers numbered from 1, so that
    [k + 1] is a tier above the lowest and [k] the tier below it), provided
    the shift [FSHIFT - nr_fshift] and the hysteresis constant are not
    negative and the threshold at the boundary between [k] and [k + 1] with
    the hysteresis constant added, shifted, does not wrap around in 32 bits
    ([(nr_run_thresholds[k - 1] + nr_run_hysteresis) << shift < 2^32]): a
    sample equal to the scaled threshold at that boundary makes the
    evaluator return [k] both when the previous tier is [k + 1] and when it
    is [k].  Under this proviso a sample exactly on the boundary drops one
    tier. *)
Theorem C8_boundary_sample_selects_lower_tier hw s k :
  let sel := nr_run_profile_sel s in
  let hyst := nr_run_hysteresis s in
  let boundary := Z.shiftl (profile_entry sel (k - 1)) (scan_shift hw sel) in
  0 <= sel < 7 ->
  1 <= k < threshold_size sel ->
  0 <= scan_shift hw sel ->
  0 <= hyst ->
  (profile_entry sel (k - 1) + hyst) * 2 ^ scan_shift hw sel < 2 ^ 32 ->
  evaluate hw boundary (set_nr_run_last (k + 1) s) = k
  /\ evaluate hw boundary (set_nr_run_last k s) = k.
Proof.
  intros sel hyst boundary Hsel Hk Hshift Hhyst Hfit.
  pose proof (profile_entry_range sel (k - 1)) as Hek.
  assert (Hpow : 0 < 2 ^ scan_shift hw sel) by (apply Z.pow_pos_nonneg; lia).
  assert (Hb : boundary = profile_entry sel (k - 1) * 2 ^ scan_shift hw sel)
    by (unfold boundary; apply Z.shiftl_mul_pow2; lia).
  assert (Hu : u32 boundary = boundary) by (apply u32_small; nia).
  assert (Hbelow : forall last j, 1 <= j < k -> k <= last ->
            tested_threshold hw sel hyst last j < boundary).
  { intros last j Hj Hlast. unfold tested_threshold.
    destruct (Z.leb_spec last j) as [?|_]; [lia|].
    pose proof (profile_entry_range sel (j - 1)) as Hej.
    pose proof (profile_entry_mono sel j k Hsel ltac:(lia) ltac:(lia)
                  ltac:(lia)) as Hmono.
    rewrite shl32_small by (try lia; nia). nia. }
  split; apply evaluate_unique;
    cbn [nr_run_profile_sel nr_run_hysteresis nr_run_last set_nr_run_last];
    fold sel hyst; rewrite ?Hu; try exact Hk;
    try (intros j Hj; apply Hbelow; lia).
  - unfold tested_threshold. destruct (Z.leb_spec (k + 1) k) as [?|_]; [lia|].
    rewrite shl32_small by (try lia; nia). lia.
  - unfold tested_threshold. rewrite Z.leb_refl.
    rewrite (u32_small (_ + _)) by nia.
    rewrite shl32_small by (try lia; nia). nia.
Qed.

Lemma C8_boundary_sample_witness :
  evaluate exynos7870 (Z.shiftl 16 8) (set_nr_run_last 3 exynos_init) = 2
  /\ evaluate exynos7870 (Z.shiftl 16 8) (set_nr_run_last 2 exynos_init) = 2.
Proof.
  apply (C8_boundary_sample_selects_lower_tier exynos7870 exynos_init 2);
    vm_compute; intuition congruence.
Defined.

(** C8, the claim as worded, fails: on the balanced profile with previous
    tier 2, the sample exactly on the scaled boundary between tiers 1 and 2
    (11 << 8) is placed in tier 1, below the previous tier. *)
Lemma C8_counterexample :
  let s := set_nr_run_last 2 exynos_init in
  let sample := Z.shiftl (profile_entry 0 0) (scan_shift exynos7870 0) in
  evaluate exynos7870 sample s < 2.
Proof. vm_compute. reflexivity. Qed.

(** The proviso on the hysteresis constant cannot be dropped.  With
    [nr_run_hysteresis] written to 4294967285 through its module parameter,
    the adjusted threshold of tier 1, 11 + 4294967285, wraps around to 0: a
    sample on the boundary between tiers 1 and 2 with previous tier 1 is
    then above every threshold the scan tests and is placed in tier 4. *)
Lemma boundary_sample_with_wrapped_hysteresis :
  let s :=
    set_nr_run_last 1
      (module_param_set P_nr_run_hysteresis 4294967285 exynos_init) in
  let sample := Z.shiftl (profile_entry 0 0) (scan_shift exynos7870 0) in
  nr_run_hysteresis s = 4294967285
  /\ u32 (profile_entry 0 0 + nr_run_hysteresis s) = 0
  /\ evaluate exynos7870 sample s = 4.
Proof. vm_compute. repeat split. Qed.

(** ** Hotplug requests: what they change and what they log *)

Lemma hotplug_only_refl s : hotplug_only s s.
Proof. unfold hotplug_only. now destruct s. Qed.

Lemma hotplug_only_trans s1 s2 s3 :
  hotplug_only s1 s2 -> hotplug_only s2 s3 -> hotplug_only s1 s3.
Proof. unfold hotplug_only. intros H12 H23. rewrite H23, H12. reflexivity. Qed.

Lemma cpu_up_only hw cpu s : hotplug_only s (cpu_up hw cpu s).
Proof. unfold hotplug_only, cpu_up. now destruct (bool_decide _), s. Qed.

Lemma cpu_down_only cpu s : hotplug_only s (cpu_down cpu s).
Proof. unfold hotplug_only, cpu_down. now destruct s. Qed.

Lemma cpu_down_nocheck_only cpu s : hotplug_only s (cpu_down_nocheck cpu s).
Proof. unfold hotplug_only, cpu_down_nocheck. now destruct s. Qed.

Lemma foldl_hotplug_only (f : state -> nat -> state) l :
  (forall s cpu, hotplug_only s (f s cpu)) ->
  forall s, hotplug_only s (foldl f s l).
Proof.
  intros Hf. induction l as [|c l IH]; intros s; cbn [foldl].
  - apply hotplug_only_refl.
  - eapply hotplug_only_trans; [apply Hf|apply IH].
Qed.

Lemma foldl_cpu_up_log hw l s :
  hotplug_log (foldl (fun s cpu => cpu_up hw cpu s) s l)
  = hotplug_log s ++ (CpuUp <$> l).
Proof.
  revert s. induction l as [|c l IH]; intros s; cbn [foldl fmap list_fmap].
  - now rewrite app_nil_r.
  - rewrite IH. unfold cpu_up.
    destruct (bool_decide _); cbn; now rewrite <- app_assoc.
Qed.

Lemma foldl_cpu_down_log l s :
  hotplug_log (foldl (fun s cpu => cpu_down cpu s) s l)
  = hotplug_log s ++ (CpuDown <$> l).
Proof.
  revert s. induction l as [|c l IH]; intros s; cbn [foldl fmap list_fmap].
  - now rewrite app_nil_r.
  - rewrite IH. cbn. now rewrite <- app_assoc.
Qed.

Lemma foldl_cpu_down_nocheck_log l s :
  hotplug_log (foldl (fun s cpu => cpu_down_nocheck cpu s) s l)
  = hotplug_log s ++ (CpuDownNocheck <$> l).
Proof.
  revert s. induction l as [|c l IH]; intros s; cbn [foldl fmap list_fmap].
  - now rewrite app_nil_r.
  - rewrite IH. cbn. now rewrite <- app_assoc.
Qed.

Lemma foldl_cpu_up_mask hw l s cpu :
  cpu ∈ cpu_online_mask (foldl (fun s cpu => cpu_up hw cpu s) s l)
  <-> cpu ∈ cpu_online_mask s \/ (cpu ∈ l /\ (cpu < nr_cpu_ids hw)%nat).
Proof.
  revert s. induction l as [|c l IH]; intros s; cbn [foldl].
  - rewrite elem_of_nil. tauto.
  - rewrite IH, elem_of_cons. unfold cpu_up.
    destruct (bool_decide_reflect (c < nr_cpu_ids hw)%nat) as [Hc|Hc]; cbn.
    + rewrite elem_of_union, elem_of_singleton.
      split; [intros [[?| ->]|?]|intros [?|[[->|?] ?]]]; tauto.
    + split; [tauto|intros [?|[[->|?] ?]]; tauto].
Qed.

Lemma foldl_cpu_down_mask l s cpu :
  cpu ∈ cpu_online_mask (foldl (fun s cpu => cpu_down cpu s) s l)
  <-> cpu ∈ cpu_online_mask s /\ cpu ∉ l.
Proof.
  revert s. induction l as [|c l IH]; intros s; cbn [foldl].
  - rewrite elem_of_nil. tauto.
  - rewrite IH, not_elem_of_cons. cbn.
    rewrite elem_of_difference, elem_of_singleton. tauto.
Qed.

Lemma issued_app s s' d :
  hotplug_log s' = hotplug_log s ++ d -> issued s s' = d.
Proof. unfold issued. intros ->. apply drop_app_length. Qed.

Lemma issued_refl s : issued s s = [].
Proof. unfold issued. apply drop_all. Qed.

(** [set_cpus] only requests CPUs at or above [nr_possible_cores] go
    offline. *)
Lemma set_cpus_summary hw s :
  hotplug_only s (set_cpus hw s)
  /\ exists l,
       hotplug_log (set_cpus hw s) = hotplug_log s ++ (CpuDown <$> l)
       /\ (forall cpu, cpu ∈ l -> nr_possible_cores s <= Z.of_nat cpu)
       /\ (forall cpu, cpu ∈ cpu_online_mask (set_cpus hw s) ->
                       cpu ∈ cpu_online_mask s).
Proof.
  unfold set_cpus. generalize (cpus_down_to (nr_cpu_ids hw - 1) 1).
  intros cpus. revert s. induction cpus as [|c cpus IH]; intros s; cbn [foldl].
  - split; [apply hotplug_only_refl|]. exists []. cbn.
    rewrite app_nil_r. repeat split; [intros ? H; inversion H|tauto].
  - set (s1 := if negb (cpu_online c s) then s
               else if nr_possible_cores s <=? Z.of_nat c
                    then cpu_down c s else s).
    destruct (IH s1) as (Honly & l & Hlog & Hl & Hmask).
    assert (H1 : hotplug_only s s1
                 /\ nr_possible_cores s1 = nr_possible_cores s
                 /\ ((s1 = s) \/
                     (hotplug_log s1 = hotplug_log s ++ [CpuDown c]
                      /\ nr_possible_cores s <= Z.of_nat c
                      /\ (forall x, x ∈ cpu_online_mask s1 ->
                                    x ∈ cpu_online_mask s)))).
    { subst s1. destruct (negb (cpu_online c s));
        [split; [apply hotplug_only_refl|]; auto|].
      destruct (Z.leb_spec (nr_possible_cores s) (Z.of_nat c));
        [|split; [apply hotplug_only_refl|]; auto].
      split; [apply cpu_down_only|]. split; [reflexivity|]. right.
      repeat split; [assumption|]. cbn. intros x Hx.
      apply elem_of_difference in Hx. tauto. }
    destruct H1 as (Honly1 & Hnpc & Hcase).
    split; [eapply hotplug_only_trans; eassumption|].
    destruct Hcase as [E|(Hlog1 & Hc & Hmask1)].
    + exists l. rewrite E in *. auto.
    + exists (c :: l). rewrite Hlog, Hlog1, <- app_assoc. cbn.
      repeat split; [|auto].
      intros x Hx. apply elem_of_cons in Hx as [->|Hx]; [assumption|].
      rewrite <- Hnpc. auto.
Qed.

Ltac split_control H :=
  destruct H as (?Hact & ?Hsel & ?Hnpc & ?Hthr & ?Hhys & ?Hpc & ?Hsus
                 & ?Hcac & ?Hlazy & ?Hidle & ?HLnr & ?Hwp & ?Hcp & ?Hap).

Lemma same_control_refl s : same_control s s.
Proof. unfold same_control. tauto. Qed.

Lemma same_control_trans s1 s2 s3 :
  same_control s1 s2 -> same_control s2 s3 -> same_control s1 s3.
Proof.
  unfold same_control. intros H12 H23. split_control H12. split_control H23.
  repeat split; congruence.
Qed.

Lemma hotplug_only_same_control s s' : hotplug_only s s' -> same_control s s'.
Proof.
  unfold hotplug_only, same_control. intros ->. destruct s; cbn. tauto.
Qed.

Lemma cpu_all_ctrl_only hw online s : hotplug_only s (cpu_all_ctrl hw online s).
Proof.
  unfold cpu_all_ctrl.
  destruct online; [destruct (lazymode s)|]; apply foldl_hotplug_only;
    intros; first [apply cpu_up_only|apply cpu_down_only].
Qed.

Lemma cpu_all_ctrl_log hw online s :
  hotplug_log (cpu_all_ctrl hw online s)
  = hotplug_log s
    ++ (if online then (CpuUp <$> scale_up_cpus hw s)
        else (CpuDown <$> cpus_down_to (nr_cpu_ids hw - 1) 2)).
Proof.
  unfold cpu_all_ctrl, scale_up_cpus.
  destruct online; [destruct (lazymode s)|];
    first [apply foldl_cpu_up_log|apply foldl_cpu_down_log].
Qed.

Lemma cpu_all_ctrl_up_mask hw s cpu :
  cpu ∈ cpu_online_mask (cpu_all_ctrl hw true s)
  <-> cpu ∈ cpu_online_mask s
      \/ (cpu ∈ scale_up_cpus hw s /\ (cpu < nr_cpu_ids hw)%nat).
Proof.
  unfold cpu_all_ctrl, scale_up_cpus.
  destruct (lazymode s); apply foldl_cpu_up_mask.
Qed.

(** *** The sampling part of the tick *)

Lemma calculate_thread_stats_state hw avg s :
  (calculate_thread_stats hw avg s).2
  = set_nr_run_last (evaluate hw avg s)
      (set_nr_fshift
         (if NR_RUN_ECO_MODE_PROFILE <=? nr_run_profile_sel s then 1 else 3)
         s).
Proof.
  unfold evaluate, calculate_thread_stats.
  now destruct (NR_RUN_ECO_MODE_PROFILE <=? nr_run_profile_sel s).
Qed.

Lemma work_fn_sample_summary hw avg cpu_avg s :
  let r := work_fn_sample hw avg cpu_avg s in
  r.1 = evaluate hw avg s
  /\ same_control s r.2
  /\ (forall cpu, cpu ∈ cpu_online_mask r.2 -> cpu ∈ cpu_online_mask s)
  /\ exists l,
       hotplug_log r.2 = hotplug_log s ++ (CpuDown <$> l)
       /\ (forall cpu, cpu ∈ l ->
             nr_possible_cores s <= Z.of_nat cpu
             /\ nr_possible_cores s < u32 (NR_CPUS hw)).
Proof.
  unfold work_fn_sample.
  destruct (calculate_thread_stats hw avg s) as [c s1] eqn:Hcalc.
  assert (Hc : c = evaluate hw avg s) by (unfold evaluate; now rewrite Hcalc).
  pose proof (calculate_thread_stats_state hw avg s) as Hs1.
  rewrite Hcalc in Hs1. cbn [snd] in Hs1.
  set (s2 := update_per_cpu_stat cpu_avg s1).
  assert (H2 : same_control s s2
               /\ cpu_online_mask s2 = cpu_online_mask s
               /\ hotplug_log s2 = hotplug_log s).
  { subst s2 s1. unfold same_control. cbn. tauto. }
  destruct H2 as (Hctl & Hmask & Hlog).
  assert (Hnpc2 : nr_possible_cores s2 = nr_possible_cores s)
    by (split_control Hctl; assumption).
  cbn zeta. destruct (Z.ltb_spec (nr_possible_cores s2) (u32 (NR_CPUS hw)))
    as [Hcap|Hcap]; cbn [fst snd].
  - destruct (set_cpus_summary hw s2) as (Honly & l & Hl & Hge & Hsub).
    split; [exact Hc|]. split.
    { eapply same_control_trans;
        [exact Hctl|apply hotplug_only_same_control, Honly]. }
    split; [intros cpu Hin; rewrite <- Hmask; auto|].
    exists l. rewrite Hl, Hlog. split; [reflexivity|].
    intros cpu Hin. specialize (Hge cpu Hin). lia.
  - split; [exact Hc|]. split; [exact Hctl|].
    split; [intros cpu Hin; now rewrite <- Hmask|].
    exists []. cbn. rewrite app_nil_r. split; [exact Hlog|].
    intros cpu Hin. inversion Hin.
Qed.

(** *** The decision part of the tick *)

Lemma set_persist_count_id s : set_persist_count (persist_count s) s = s.
Proof. now destruct s. Qed.

Lemma set_idle_count_id s : set_idle_count (idle_count s) s = s.
Proof. now destruct s. Qed.

(** The block in one piece: both counters are updated first, the hotplug
    requests follow. *)
Lemma work_fn_decision_eq hw c s :
  let pc' :=
    if 0 <? persist_count s then persist_count s - 1 else persist_count s in
  let idle' :=
    if idle_count s <? DEF_IDLE_COUNT then idle_count s + 1
    else idle_count s in
  work_fn_decision hw c s
  = if suspended s then s
    else if c =? 1 then
      let b := set_idle_count idle' (set_persist_count pc' s) in
      if (idle' =? DEF_IDLE_COUNT) && (pc' =? 0)
      then foldl (fun s cpu => cpu_down cpu s) b idle_shutdown
      else b
    else cpu_all_ctrl hw true (set_idle_count 0 (set_persist_count pc' s)).
Proof.
  intros pc' idle'. unfold work_fn_decision.
  destruct (suspended s); cbn [negb]; [reflexivity|].
  assert (E1 : (if 0 <? persist_count s
                then set_persist_count (persist_count s - 1) s else s)
               = set_persist_count pc' s).
  { subst pc'. destruct (0 <? persist_count s); [reflexivity|].
    now rewrite set_persist_count_id. }
  rewrite E1. destruct (c =? 1); [|reflexivity].
  set (s1 := set_persist_count pc' s).
  assert (E2 : (if idle_count s1 <? DEF_IDLE_COUNT
                then set_idle_count (idle_count s1 + 1) s1 else s1)
               = set_idle_count idle' s1).
  { subst idle' s1. cbn [idle_count set_persist_count].
    destruct (idle_count s <? DEF_IDLE_COUNT); [reflexivity|].
    now rewrite <- (set_idle_count_id (set_persist_count pc' s)) at 1. }
  cbn zeta. rewrite E2. reflexivity.
Qed.

(** What one run of the tick does to the controller's variables and which
    requests it makes: the requests of the cap ([cap]) come first, those of
    the decision block after them. *)
Lemma lazyplug_work_fn_summary hw avg cpu_avg s :
  let s' := lazyplug_work_fn hw avg cpu_avg s in
  let c := evaluate hw avg s in
  let on := negb (lazyplug_active s =? 0) && negb (suspended s) in
  let pc' :=
    if 0 <? persist_count s then persist_count s - 1 else persist_count s in
  let idle' :=
    if idle_count s <? DEF_IDLE_COUNT then idle_count s + 1
    else idle_count s in
  same_control (set_work_pending true
                  (set_idle_count (idle_count s')
                     (set_persist_count (persist_count s') s))) s'
  /\ persist_count s' = (if on then pc' else persist_count s)
  /\ idle_count s'
     = (if on then if c =? 1 then idle' else 0 else idle_count s)
  /\ (forall cpu, cpu ∈ cpu_online_mask s' ->
        cpu ∈ cpu_online_mask s
        \/ (on = true /\ c <> 1 /\ cpu ∈ scale_up_cpus hw s))
  /\ exists cap,
       (forall cpu, cpu ∈ cap ->
          nr_possible_cores s <= Z.of_nat cpu
          /\ nr_possible_cores s < u32 (NR_CPUS hw))
       /\ hotplug_log s'
          = hotplug_log s
            ++ (CpuDown <$> cap)
            ++ (if on then
                  if c =? 1 then
                    if (idle' =? DEF_IDLE_COUNT) && (pc' =? 0)
                    then (CpuDown <$> idle_shutdown) else []
                  else (CpuUp <$> scale_up_cpus hw s)
                else []).
Proof.
  intros s' c on pc' idle'. subst s'. unfold lazyplug_work_fn.
  destruct (lazyplug_active s =? 0) eqn:Hact; cbn [negb andb] in *.
  { subst on. clearbody c. cbn.
    split; [unfold same_control; cbn; tauto|].
    do 2 (split; [reflexivity|]). split; [tauto|].
    exists []. split; [intros ? H; inversion H|].
    cbn. now rewrite app_nil_r. }
  pose proof (work_fn_sample_summary hw avg cpu_avg s) as Hsample.
  destruct (work_fn_sample hw avg cpu_avg s) as [c0 s3].
  cbn [fst snd] in Hsample.
  destruct Hsample as (-> & Hctl & Hsub & cap & Hlog & Hcap).
  fold c. clearbody c. split_control Hctl.
  rewrite work_fn_decision_eq. rewrite Hsus, Hpc, Hidle. fold pc' idle'.
  clearbody pc' idle'.
  destruct (suspended s) eqn:Hsusp; subst on; cbn [negb].
  { split; [unfold same_control; cbn; repeat split; congruence|].
    do 2 (split; [cbn; congruence|]). split; [intros; left; auto|].
    exists cap. split; [exact Hcap|]. cbn.
    now rewrite Hlog, app_nil_r. }
  destruct (c =? 1) eqn:Hc.
  - set (b := set_idle_count idle' (set_persist_count pc' s3)).
    set (f := if (idle' =? DEF_IDLE_COUNT) && (pc' =? 0)
              then foldl (fun s cpu => cpu_down cpu s) b idle_shutdown
              else b).
    assert (Hf : hotplug_only b f
                 /\ hotplug_log f
                    = hotplug_log b
                      ++ (if (idle' =? DEF_IDLE_COUNT) && (pc' =? 0)
                          then (CpuDown <$> idle_shutdown) else [])
                 /\ (forall cpu, cpu ∈ cpu_online_mask f ->
                                 cpu ∈ cpu_online_mask b)).
    { subst f. destruct ((idle' =? DEF_IDLE_COUNT) && (pc' =? 0)).
      - split; [apply foldl_hotplug_only; intros; apply cpu_down_only|].
        split; [apply foldl_cpu_down_log|].
        intros cpu Hin. apply foldl_cpu_down_mask in Hin. tauto.
      - split; [apply hotplug_only_refl|]. rewrite app_nil_r. tauto. }
    destruct Hf as (Honly & Hflog & Hfsub). cbn zeta. fold b f.
    clearbody f. apply hotplug_only_same_control in Honly.
    split_control Honly. subst b. cbn in *.
    split; [unfold same_control; cbn; repeat split; congruence|].
    do 2 (split; [congruence|]). split; [intros; left; auto|].
    exists cap. split; [exact Hcap|]. cbn.
    now rewrite Hflog, Hlog, <- app_assoc.
  - set (b := set_idle_count 0 (set_persist_count pc' s3)).
    pose proof (cpu_all_ctrl_only hw true b) as Honly.
    pose proof (cpu_all_ctrl_log hw true b) as Hulog.
    pose proof (cpu_all_ctrl_up_mask hw b) as Humask.
    assert (Hup : scale_up_cpus hw b = scale_up_cpus hw s)
      by (unfold scale_up_cpus; subst b; cbn; now rewrite Hlazy).
    rewrite Hup in *. set (f := cpu_all_ctrl hw true b) in *. clearbody f.
    apply hotplug_only_same_control in Honly. split_control Honly.
    subst b. cbn in *.
    split; [unfold same_control; cbn; repeat split; congruence|].
    do 2 (split; [congruence|]). split.
    + intros cpu Hin. apply Humask in Hin as [Hin|[Hin _]]; [left; auto|].
      right. repeat split; [|exact Hin]. apply Z.eqb_neq. exact Hc.
    + exists cap. split; [exact Hcap|]. cbn.
      now rewrite Hulog, Hlog, <- app_assoc.
Qed.

(** ** The idle shutdown (C1) *)

Lemma ticks_app hw l1 l2 s :
  ticks hw (l1 ++ l2) s = ticks hw l2 (ticks hw l1 s).
Proof. unfold ticks. apply foldl_app. Qed.

Lemma lowest_tier_run_app hw l1 l2 s :
  lowest_tier_run hw (l1 ++ l2) s
  <-> lowest_tier_run hw l1 s /\ lowest_tier_run hw l2 (ticks hw l1 s).
Proof.
  revert s. induction l1 as [|i l1 IH]; intros s; cbn.
  - tauto.
  - rewrite IH. tauto.
Qed.






(** ** Steps of the driver: requests and the online mask *)

Lemma not_up_in_downs cpu (l : list nat) : CpuUp cpu ∉ CpuDown <$> l.
Proof. intros H. apply list_elem_of_fmap in H as (? & ? & _). discriminate. Qed.

Lemma not_up_in_nochecks cpu (l : list nat) :
  CpuUp cpu ∉ CpuDownNocheck <$> l.
Proof. intros H. apply list_elem_of_fmap in H as (? & ? & _). discriminate. Qed.

Lemma up_in_ups cpu (l : list nat) : CpuUp cpu ∈ CpuUp <$> l -> cpu ∈ l.
Proof.
  intros H. apply list_elem_of_fmap in H as (x & E & Hx). now inversion E.
Qed.

(** Every step extends the log, and a request to bring a CPU online comes
    from [cpu_all_ctrl(true)] only. *)
Lemma step_log hw e s :
  exists d,
    hotplug_log (step hw e s) = hotplug_log s ++ d
    /\ (forall cpu, CpuUp cpu ∈ d ->
          cpu ∈ scale_up_cpus hw s /\ scale_up_source e s).
Proof.
  destruct e as [blank|enter|avg cpu_avg| | |p v]; cbn [step].
  - exists []. rewrite app_nil_r. split; [|intros ? H; inversion H].
    destruct blank; cbn; unfold lazyplug_resume, lazyplug_suspend;
      try destruct (lazyplug_active _ =? 0); reflexivity.
  - unfold lazyplug_enter_lazy.
    destruct enter, (lazymode s); cbn [andb negb];
      try (exists []; rewrite app_nil_r;
           split; [reflexivity|intros ? H; inversion H]).
    exists (CpuDownNocheck <$> idle_shutdown).
    split; [now rewrite foldl_cpu_down_nocheck_log|].
    intros cpu H. now apply not_up_in_nochecks in H.
  - destruct (work_pending s) eqn:Hwp;
      [|exists []; rewrite app_nil_r;
        split; [reflexivity|intros ? H; inversion H]].
    destruct (lazyplug_work_fn_summary hw avg cpu_avg
                (set_work_pending false s))
      as (_ & _ & _ & _ & cap & _ & Hlog).
    eexists. split; [exact Hlog|]. cbn [lazyplug_active suspended
      set_work_pending persist_count idle_count].
    intros cpu H. apply elem_of_app in H as [H|H];
      [now apply not_up_in_downs in H|].
    destruct (lazyplug_active s =? 0) eqn:Hact; cbn [negb andb] in H;
      [inversion H|].
    destruct (suspended s) eqn:Hsus; cbn [negb] in H; [inversion H|].
    destruct (_ =? 1) in H.
    + destruct (_ && _) in H; [now apply not_up_in_downs in H|inversion H].
    + apply up_in_ups in H. split; [exact H|]. cbn.
      apply Z.eqb_neq in Hact. auto.
  - destruct (cac_pending s) eqn:Hcp;
      [|exists []; rewrite app_nil_r;
        split; [reflexivity|intros ? H; inversion H]].
    unfold lazyplug_cac_fn. eexists.
    split; [rewrite cpu_all_ctrl_log; reflexivity|].
    cbn [cac_bool set_cac_pending]. intros cpu H.
    destruct (cac_bool s) eqn:Hcac; [|now apply not_up_in_downs in H].
    apply up_in_ups in H. cbn. auto.
  - destruct (all_up_pending s) eqn:Hap;
      [|exists []; rewrite app_nil_r;
        split; [reflexivity|intros ? H; inversion H]].
    unfold cpu_all_up. eexists.
    split; [rewrite cpu_all_ctrl_log; reflexivity|].
    intros cpu H. apply up_in_ups in H. cbn. auto.
  - exists []. rewrite app_nil_r. split; [|intros ? H; inversion H].
    unfold module_param_set. destruct (_ && _); [|reflexivity].
    now destruct p.
Qed.

(** A CPU that is online after a step was online before it or is one of
    those [cpu_all_ctrl(true)] brings up. *)
Lemma step_mask hw e s cpu :
  cpu ∈ cpu_online_mask (step hw e s) ->
  cpu ∈ cpu_online_mask s \/ cpu ∈ scale_up_cpus hw s.
Proof.
  destruct e as [blank|enter|avg cpu_avg| | |p v]; cbn [step].
  - destruct blank; cbn; unfold lazyplug_resume, lazyplug_suspend;
      try destruct (lazyplug_active _ =? 0); cbn; auto.
  - unfold lazyplug_enter_lazy.
    destruct enter, (lazymode s); cbn [andb negb]; cbn; auto.
    repeat rewrite elem_of_difference. tauto.
  - destruct (work_pending s); [|auto].
    destruct (lazyplug_work_fn_summary hw avg cpu_avg
                (set_work_pending false s))
      as (_ & _ & _ & Hmask & _).
    intros H. apply Hmask in H as [H|(_ & _ & H)]; auto.
  - destruct (cac_pending s); [|auto]. unfold lazyplug_cac_fn.
    cbn [cac_bool set_cac_pending]. destruct (cac_bool s).
    + intros H. apply cpu_all_ctrl_up_mask in H as [H|[H _]]; auto.
    + unfold cpu_all_ctrl. intros H. apply foldl_cpu_down_mask in H.
      left. tauto.
  - destruct (all_up_pending s); [|auto]. unfold cpu_all_up.
    intros H. apply cpu_all_ctrl_up_mask in H as [H|[H _]]; auto.
  - unfold module_param_set. destruct (_ && _); [|auto].
    destruct p; cbn; auto.
Qed.

(** The controller's flags and counters after a step. *)
Lemma step_control hw e s :
  let s' := step hw e s in
  persist_count s'
  = match e with
    | EvFb FB_BLANK_UNBLANK =>
        if lazyplug_active s =? 0 then persist_count s else BUSY_PERSISTENCE
    | EvWork _ _ =>
        if work_pending s && negb (lazyplug_active s =? 0)
           && negb (suspended s)
        then if 0 <? persist_count s then persist_count s - 1
             else persist_count s
        else persist_count s
    | _ => persist_count s
    end
  /\ suspended s'
     = match e with
       | EvFb FB_BLANK_UNBLANK =>
           if lazyplug_active s =? 0 then suspended s else false
       | EvFb FB_BLANK_POWERDOWN =>
           if lazyplug_active s =? 0 then suspended s else true
       | _ => suspended s
       end
  /\ lazymode s'
     = match e with EvEnterLazy enter => enter | _ => lazymode s end
  /\ lazyplug_active s'
     = match e with
       | EvParam P_lazyplug_active v =>
           if (0 <=? v) && (v <=? UINT_MAX) then v else lazyplug_active s
       | _ => lazyplug_active s
       end
  /\ all_up_pending s'
     = match e with
       | EvFb FB_BLANK_UNBLANK =>
           if lazyplug_active s =? 0 then all_up_pending s else true
       | EvAllUp => false
       | _ => all_up_pending s
       end
  /\ cac_bool s'
     = match e with
       | EvFb FB_BLANK_UNBLANK =>
           if lazyplug_active s =? 0 then cac_bool s else true
       | EvFb FB_BLANK_POWERDOWN =>
           if lazyplug_active s =? 0 then cac_bool s else false
       | EvEnterLazy false => if lazymode s then true else cac_bool s
       | _ => cac_bool s
       end.
Proof.
  intros s'. subst s'.
  destruct e as [blank|enter|avg cpu_avg| | |p v]; cbn [step].
  - destruct blank; cbn; unfold lazyplug_resume, lazyplug_suspend;
      try destruct (lazyplug_active _ =? 0) eqn:Hact; cbn;
      rewrite ?Hact; tauto.
  - unfold lazyplug_enter_lazy.
    destruct enter, (lazymode s) eqn:Hl; cbn [andb negb]; cbn; tauto.
  - destruct (work_pending s) eqn:Hwp; cbn [andb]; [|tauto].
    destruct (lazyplug_work_fn_summary hw avg cpu_avg
                (set_work_pending false s))
      as (Hctl & Hpc & _).
    split_control Hctl. cbn in *. rewrite Hpc. tauto.
  - destruct (cac_pending s) eqn:Hcp.
    + pose proof (cpu_all_ctrl_only hw (cac_bool s)
                    (set_cac_pending false s)) as Honly.
      apply hotplug_only_same_control in Honly. split_control Honly.
      unfold lazyplug_cac_fn. cbn in *. tauto.
    + tauto.
  - destruct (all_up_pending s) eqn:Hap.
    + pose proof (cpu_all_ctrl_only hw true (set_all_up_pending false s))
        as Honly.
      apply hotplug_only_same_control in Honly. split_control Honly.
      unfold cpu_all_up. cbn in *. tauto.
    + tauto.
  - unfold module_param_set. destruct (_ && _); [|destruct p; tauto].
    destruct p; cbn; tauto.
Qed.

(** ** C4: no periodic scale-up while suspended *)

(** C4 (amended).  While the suspended flag is true, no run of the periodic
    tick requests any CPU online.  A step taken while suspended requests
    CPUs online only when it is a pending forced scale-up pass: the work
    item [cpu_all_up_work], or [lazyplug_cac] with [cac_bool] set.  The
    first is armed by the resume event only; [cac_bool] is set by the resume
    event and by leaving lazy mode, which therefore also brings CPUs back
    while the flag is still true. *)
Theorem C4_no_periodic_scale_up_while_suspended hw s :
  suspended s = true ->
  (forall avg cpu_avg cpu,
     CpuUp cpu ∉ issued s (lazyplug_work_fn hw avg cpu_avg s))
  /\ (forall e cpu, CpuUp cpu ∈ issued s (step hw e s) ->
        (e = EvAllUp /\ all_up_pending s = true)
        \/ (e = EvCac /\ cac_pending s = true /\ cac_bool s = true))
  /\ (forall e, all_up_pending (step hw e s) = true ->
        all_up_pending s = true \/ e = EvFb FB_BLANK_UNBLANK)
  /\ (forall e, cac_bool (step hw e s) = true ->
        cac_bool s = true \/ e = EvFb FB_BLANK_UNBLANK
        \/ e = EvEnterLazy false).
Proof.
  intros Hsus. split; [|split; [|split]].
  - intros avg cpu_avg cpu H.
    destruct (lazyplug_work_fn_summary hw avg cpu_avg s)
      as (_ & _ & _ & _ & cap & _ & Hlog).
    rewrite Hsus, andb_false_r, app_nil_r in Hlog.
    rewrite (issued_app _ _ _ Hlog) in H. now apply not_up_in_downs in H.
  - intros e cpu H. destruct (step_log hw e s) as (d & Hlog & Hd).
    rewrite (issued_app _ _ _ Hlog) in H. apply Hd in H as [_ Hsrc].
    destruct e; cbn in Hsrc; try contradiction; auto.
    destruct Hsrc as (_ & Hs & _). congruence.
  - intros e H. destruct (step_control hw e s) as (_ & _ & _ & _ & Hap & _).
    rewrite Hap in H.
    destruct e as [[| |]| | | | |]; auto; discriminate.
  - intros e H. destruct (step_control hw e s) as (_ & _ & _ & _ & _ & Hcb).
    rewrite Hcb in H.
    destruct e as [[| |]|[|]| | | |]; auto.
    destruct (lazyplug_active s =? 0); [auto|discriminate].
Qed.

Lemma C4_no_periodic_scale_up_witness :
  let s := fb_state_change FB_BLANK_POWERDOWN exynos_init in
  CpuUp 1 ∉ issued s (lazyplug_work_fn exynos7870 0 (fun _ => 0) s).
Proof.
  intros s.
  apply (proj1 (C4_no_periodic_scale_up_while_suspended exynos7870 s
                  eq_refl)).
Defined.

(** C4, the claim as worded, fails in its second half: with the display off
    and lazy mode on, leaving lazy mode queues [lazyplug_cac] with
    [cac_bool] set, and that pass requests CPUs 1 to 7 online while the
    suspended flag is still true, without any resume event. *)
Lemma C4_counterexample :
  let s :=
    run exynos7870 [EvEnterLazy true; EvFb FB_BLANK_POWERDOWN; EvCac]
      exynos_init in
  let s' := run exynos7870 [EvEnterLazy false; EvCac] s in
  suspended s = true
  /\ suspended s' = true
  /\ issued s s' = (CpuUp <$> [1; 2; 3; 4; 5; 6; 7]%nat).
Proof. vm_compute. repeat split. Qed.

(** ** C9: the cooldown counter *)

Lemma step_persist_nonneg hw e s :
  0 <= persist_count s -> 0 <= persist_count (step hw e s).
Proof.
  intros H. destruct (step_control hw e s) as (Hpc & _). rewrite Hpc.
  destruct e as [[| |]| | | | |]; try assumption.
  - destruct (lazyplug_active s =? 0); [assumption|]. now vm_compute.
  - destruct (_ && _); [|assumption].
    destruct (Z.ltb_spec 0 (persist_count s)); lia.
Qed.

Lemma reachable_persist_nonneg hw s : reachable hw s -> 0 <= persist_count s.
Proof.
  intros (online & es & ->).
  assert (H0 : 0 <= persist_count (lazyplug_init (boot_state hw online))).
  { unfold lazyplug_init. repeat destruct (_ <? _); now cbn. }
  revert H0. generalize (lazyplug_init (boot_state hw online)).
  induction es as [|e es IH]; intros s H; cbn; [exact H|].
  apply IH. now apply step_persist_nonneg.
Qed.

(** The decision block requests nothing offline while the counter it leaves
    is still positive. *)
Lemma work_fn_decision_blocked hw c s cpu :
  0 < persist_count (work_fn_decision hw c s) ->
  CpuDown cpu ∉ issued s (work_fn_decision hw c s).
Proof.
  rewrite work_fn_decision_eq.
  destruct (suspended s); [rewrite issued_refl; intros _ H; inversion H|].
  destruct (c =? 1).
  - cbn zeta.
    set (pc' := if 0 <? persist_count s then persist_count s - 1
                else persist_count s).
    destruct (Z.eqb_spec pc' 0) as [E|NE].
    + rewrite andb_comm. cbn [andb]. intros Hpos. exfalso.
      destruct (_ =? DEF_IDLE_COUNT).
      * match type of Hpos with
        | context [foldl ?f ?b ?l] =>
            pose proof (foldl_hotplug_only f l
                          ltac:(intros; apply cpu_down_only) b) as Honly
        end.
        apply hotplug_only_same_control in Honly. split_control Honly.
        rewrite Hpc in Hpos. cbn in Hpos. lia.
      * cbn in Hpos. lia.
    + rewrite andb_false_r. intros _ H.
      rewrite (issued_app _ _ []) in H; [inversion H|].
      cbn. now rewrite app_nil_r.
  - intros _ H.
    erewrite issued_app in H by (rewrite cpu_all_ctrl_log; reflexivity).
    apply list_elem_of_fmap in H as (? & ? & _). discriminate.
Qed.

(** C9.  [persist_count] is never negative in a reachable state; a tick
    never increases it and lowers it by at most 1, not below 0; the only
    step that raises it is the resume event, which sets it to
    [BUSY_PERSISTENCE] = 3500 / 132 = 26; and while the counter the tick
    tests (the value after its decrement) is positive, the idle shutdown is
    not taken: the decision block requests no CPU offline, and any offline
    request of the whole tick comes from the cap [nr_possible_cores]. *)
Theorem C9_persist_count_floor_and_cooldown hw :
  (forall s, reachable hw s -> 0 <= persist_count s)
  /\ (forall avg cpu_avg s,
        let s' := lazyplug_work_fn hw avg cpu_avg s in
        persist_count s - 1 <= persist_count s' <= persist_count s
        /\ (0 <= persist_count s -> 0 <= persist_count s'))
  /\ (forall e s, persist_count s < persist_count (step hw e s) ->
        e = EvFb FB_BLANK_UNBLANK
        /\ persist_count (step hw e s) = BUSY_PERSISTENCE)
  /\ (forall s,
        persist_count (lazyplug_resume s)
        = if lazyplug_active s =? 0 then persist_count s
          else BUSY_PERSISTENCE)
  /\ BUSY_PERSISTENCE = 26
  /\ (forall c s cpu,
        0 < persist_count (work_fn_decision hw c s) ->
        CpuDown cpu ∉ issued s (work_fn_decision hw c s))
  /\ (forall avg cpu_avg s cpu,
        0 < persist_count (lazyplug_work_fn hw avg cpu_avg s) ->
        CpuDown cpu ∈ issued s (lazyplug_work_fn hw avg cpu_avg s) ->
        nr_possible_cores s <= Z.of_nat cpu
        /\ nr_possible_cores s < u32 (NR_CPUS hw)).
Proof.
  split; [apply reachable_persist_nonneg|].
  split.
  { intros avg cpu_avg s s'.
    destruct (lazyplug_work_fn_summary hw avg cpu_avg s) as (_ & Hpc & _).
    fold s' in Hpc. rewrite Hpc.
    destruct (_ && _); [|lia].
    destruct (Z.ltb_spec 0 (persist_count s)); lia. }
  split.
  { intros e s Hlt.
    destruct (step_control hw e s) as (Hpc & _). rewrite Hpc in *.
    destruct e as [[| |]| | | | |]; try lia.
    - destruct (lazyplug_active s =? 0); [lia|auto].
    - destruct (_ && _); [|lia].
      destruct (Z.ltb_spec 0 (persist_count s)); lia. }
  split.
  { intros s. unfold lazyplug_resume.
    now destruct (lazyplug_active s =? 0). }
  split; [reflexivity|].
  split; [apply work_fn_decision_blocked|].
  intros avg cpu_avg s cpu Hpos Hin.
  destruct (lazyplug_work_fn_summary hw avg cpu_avg s)
    as (_ & Hpc & _ & _ & cap & Hcap & Hlog).
  rewrite (issued_app _ _ _ Hlog) in Hin. rewrite Hpc in Hpos.
  apply elem_of_app in Hin as [Hin|Hin].
  { apply list_elem_of_fmap in Hin as (x & E & Hx). inversion E; subst.
    now apply Hcap. }
  exfalso. destruct (_ && _); [|inversion Hin].
  destruct (_ =? 1).
  - destruct (Z.eqb_spec
                (if 0 <? persist_count s then persist_count s - 1
                 else persist_count s) 0) as [E|NE]; [lia|].
    rewrite andb_false_r in Hin. inversion Hin.
  - apply list_elem_of_fmap in Hin as (? & ? & _). discriminate.
Qed.

(** ** C10: the forced scale-up in lazy mode *)

Lemma scale_up_lazy hw s cpu :
  lazymode s = true -> cpu ∈ scale_up_cpus hw s -> (1 <= cpu <= 3)%nat.
Proof.
  unfold scale_up_cpus. intros -> H. cbn in H.
  repeat (apply elem_of_cons in H as [->|H]); try lia. inversion H.
Qed.

(** Any sequence of steps that stays in lazy mode brings up CPUs 1 to 3 at
    most and leaves the CPUs from 4 on as they were or offline. *)
Lemma lazy_run hw es s :
  lazymode s = true ->
  Forall (fun e => keeps_lazymode e = true) es ->
  exists d,
    hotplug_log (run hw es s) = hotplug_log s ++ d
    /\ (forall cpu, CpuUp cpu ∈ d -> (1 <= cpu <= 3)%nat)
    /\ (forall cpu, (4 <= cpu)%nat ->
          cpu ∈ cpu_online_mask (run hw es s) -> cpu ∈ cpu_online_mask s)
    /\ lazymode (run hw es s) = true.
Proof.
  revert s. induction es as [|e es IH]; intros s Hl Hes; cbn [run foldl].
  - exists []. rewrite app_nil_r.
    split; [reflexivity|]. split; [intros ? H; inversion H|]. auto.
  - apply Forall_cons in Hes as [He Hes].
    destruct (step_log hw e s) as (d1 & Hlog1 & Hd1).
    destruct (step_control hw e s) as (_ & _ & Hlazy & _).
    assert (Hl1 : lazymode (step hw e s) = true)
      by (rewrite Hlazy; destruct e; try discriminate; exact Hl).
    destruct (IH _ Hl1 Hes) as (d2 & Hlog2 & Hd2 & Hmask2 & Hl2).
    exists (d1 ++ d2). unfold run in *.
    split; [now rewrite Hlog2, Hlog1, app_assoc|].
    split; [|split; [|exact Hl2]].
    + intros cpu H. apply elem_of_app in H as [H|H]; [|auto].
      apply Hd1 in H as [H _]. exact (scale_up_lazy hw s cpu Hl H).
    + intros cpu Hge H. apply Hmask2 in H; [|exact Hge].
      apply step_mask in H as [H|H]; [exact H|].
      apply (scale_up_lazy hw s cpu Hl) in H. lia.
Qed.

(** C10.  While [lazymode] is true, the forced scale-up [cpu_all_ctrl(true)]
    requests exactly CPUs 1, 2 and 3 online and changes no CPU from 4 on;
    the same bound holds for every sequence of steps taken in lazy mode (a
    resume event and the passes it queues, a tick that sees a higher tier):
    only CPUs 1 to 3 are requested online, and no CPU from 4 on comes
    online. *)
Theorem C10_lazy_scale_up_first_cluster_only hw s :
  lazymode s = true ->
  issued s (cpu_all_ctrl hw true s) = [CpuUp 1; CpuUp 2; CpuUp 3]
  /\ (forall cpu, (4 <= cpu)%nat ->
        cpu ∈ cpu_online_mask (cpu_all_ctrl hw true s)
        <-> cpu ∈ cpu_online_mask s)
  /\ (forall es cpu,
        Forall (fun e => keeps_lazymode e = true) es ->
        (CpuUp cpu ∈ issued s (run hw es s) -> (1 <= cpu <= 3)%nat)
        /\ ((4 <= cpu)%nat -> cpu ∈ cpu_online_mask (run hw es s) ->
            cpu ∈ cpu_online_mask s))
  /\ (forall avg cpu_avg cpu,
        CpuUp cpu ∈ issued s (lazyplug_work_fn hw avg cpu_avg s) ->
        (1 <= cpu <= 3)%nat).
Proof.
  intros Hl. split; [|split; [|split]].
  - apply issued_app. rewrite cpu_all_ctrl_log. unfold scale_up_cpus.
    now rewrite Hl.
  - intros cpu Hge. rewrite cpu_all_ctrl_up_mask. split; [|auto].
    intros [H|[H _]]; [exact H|].
    apply (scale_up_lazy hw s cpu Hl) in H. lia.
  - intros es cpu Hes.
    destruct (lazy_run hw es s Hl Hes) as (d & Hlog & Hd & Hmask & _).
    rewrite (issued_app _ _ _ Hlog). split; [apply Hd|apply Hmask].
  - intros avg cpu_avg cpu H.
    destruct (lazyplug_work_fn_summary hw avg cpu_avg s)
      as (_ & _ & _ & _ & cap & _ & Hlog).
    rewrite (issued_app _ _ _ Hlog) in H.
    apply elem_of_app in H as [H|H]; [now apply not_up_in_downs in H|].
    destruct (_ && _); [|inversion H]. destruct (_ =? 1).
    + destruct (_ && _); [now apply not_up_in_downs in H|inversion H].
    + apply up_in_ups in H. exact (scale_up_lazy hw s cpu Hl H).
Qed.

Lemma C10_lazy_scale_up_witness :
  let s := lazyplug_enter_lazy true exynos_init in
  issued s (cpu_all_ctrl exynos7870 true s) = [CpuUp 1; CpuUp 2; CpuUp 3].
Proof.
  intros s.
  apply (proj1 (C10_lazy_scale_up_first_cluster_only exynos7870 s eq_refl)).
Defined.

(** ** C5: suspend followed by resume *)

Lemma run_app hw l1 l2 s : run hw (l1 ++ l2) s = run hw l2 (run hw l1 s).
Proof. unfold run. apply foldl_app. Qed.

Lemma elem_of_cpus_up_to lo hi cpu :
  cpu ∈ cpus_up_to lo hi <-> (lo <= cpu /\ cpu < S hi)%nat.
Proof. unfold cpus_up_to. rewrite elem_of_seq. lia. Qed.

(** Runs of work items change neither the master switch nor the mode. *)
Lemma run_keeps_mode hw es s :
  Forall (fun e => is_work_run e = true) es ->
  lazyplug_active (run hw es s) = lazyplug_active s
  /\ lazymode (run hw es s) = lazymode s.
Proof.
  revert s. induction es as [|e es IH]; intros s Hes; cbn [run foldl].
  - auto.
  - apply Forall_cons in Hes as [He Hes].
    destruct (IH (step hw e s) Hes) as [Ha Hl]. unfold run in *.
    destruct (step_control hw e s) as (_ & _ & Hlazy & Hact & _).
    rewrite Ha, Hl, Hact, Hlazy. destruct e; try discriminate; auto.
Qed.

(** A forced scale-up outside lazy mode asks for every CPU but CPU 0. *)
Lemma forced_pass hw s :
  lazymode s = false ->
  let s' := cpu_all_ctrl hw true s in
  same_control s s'
  /\ hotplug_log s'
     = hotplug_log s ++ (CpuUp <$> cpus_up_to 1 (nr_cpu_ids hw - 1))
  /\ (forall cpu, cpu ∈ cpu_online_mask s'
        <-> cpu ∈ cpu_online_mask s \/ (1 <= cpu < nr_cpu_ids hw)%nat).
Proof.
  intros Hl s'. subst s'.
  split; [apply hotplug_only_same_control, cpu_all_ctrl_only|].
  split.
  - rewrite cpu_all_ctrl_log. unfold scale_up_cpus. now rewrite Hl.
  - intros cpu. rewrite cpu_all_ctrl_up_mask. unfold scale_up_cpus.
    rewrite Hl, elem_of_cpus_up_to. intuition lia.
Qed.

(** The two queued passes, run outside lazy mode. *)
Lemma pass_all_up hw s :
  all_up_pending s = true ->
  lazymode s = false ->
  let s' := step hw EvAllUp s in
  same_control (set_all_up_pending false s) s'
  /\ hotplug_log s'
     = hotplug_log s ++ (CpuUp <$> cpus_up_to 1 (nr_cpu_ids hw - 1))
  /\ (forall cpu, (1 <= cpu < nr_cpu_ids hw)%nat \/ cpu ∈ cpu_online_mask s ->
        cpu ∈ cpu_online_mask s').
Proof.
  intros Hap Hl s'. subst s'. cbn [step]. rewrite Hap. unfold cpu_all_up.
  destruct (forced_pass hw (set_all_up_pending false s) Hl)
    as (Hc & Hlog & Hmask).
  split; [exact Hc|]. split; [exact Hlog|].
  intros cpu H. apply Hmask. cbn. tauto.
Qed.

Lemma pass_cac hw s :
  cac_pending s = true ->
  cac_bool s = true ->
  lazymode s = false ->
  let s' := step hw EvCac s in
  same_control (set_cac_pending false s) s'
  /\ hotplug_log s'
     = hotplug_log s ++ (CpuUp <$> cpus_up_to 1 (nr_cpu_ids hw - 1))
  /\ (forall cpu, (1 <= cpu < nr_cpu_ids hw)%nat \/ cpu ∈ cpu_online_mask s ->
        cpu ∈ cpu_online_mask s').
Proof.
  intros Hcp Hcb Hl s'. subst s'. cbn [step]. rewrite Hcp.
  unfold lazyplug_cac_fn. cbn [cac_bool set_cac_pending]. rewrite Hcb.
  destruct (forced_pass hw (set_cac_pending false s) Hl)
    as (Hc & Hlog & Hmask).
  split; [exact Hc|]. split; [exact Hlog|].
  intros cpu H. apply Hmask. cbn. tauto.
Qed.

(** C5 (amended).  With the controller active and NOT in lazy mode, for
    every starting state and whatever ticks and queued passes run during
    the suspension: a suspend followed by a resume leaves [persist_count]
    at the cooldown constant [BUSY_PERSISTENCE] (3500 / 132 = 26) and
    [suspended] false, and the passes the resume queues, in either order,
    request every CPU from 1 to [nr_cpu_ids - 1] online (and nothing else),
    so that all of them are online afterwards. *)
Theorem C5_suspend_resume_restores_pool hw s mid (cac_last : bool) :
  lazyplug_active s <> 0 ->
  lazymode s = false ->
  Forall (fun e => is_work_run e = true) mid ->
  let s1 :=
    run hw (EvFb FB_BLANK_POWERDOWN :: mid ++ [EvFb FB_BLANK_UNBLANK]) s in
  let s2 :=
    run hw (if cac_last then [EvAllUp; EvCac] else [EvCac; EvAllUp]) s1 in
  persist_count s1 = BUSY_PERSISTENCE
  /\ suspended s1 = false
  /\ persist_count s2 = BUSY_PERSISTENCE
  /\ suspended s2 = false
  /\ BUSY_PERSISTENCE = 26
  /\ issued s1 s2
     = (CpuUp <$> cpus_up_to 1 (nr_cpu_ids hw - 1))
       ++ (CpuUp <$> cpus_up_to 1 (nr_cpu_ids hw - 1))
  /\ (forall cpu, (1 <= cpu < nr_cpu_ids hw)%nat ->
        CpuUp cpu ∈ issued s1 s2 /\ cpu ∈ cpu_online_mask s2).
Proof.
  intros Hact Hl Hmid s1 s2.
  assert (H1 : persist_count s1 = BUSY_PERSISTENCE
               /\ suspended s1 = false /\ lazymode s1 = false
               /\ all_up_pending s1 = true /\ cac_pending s1 = true
               /\ cac_bool s1 = true).
  { subst s1. change (EvFb FB_BLANK_POWERDOWN :: mid ++ [EvFb FB_BLANK_UNBLANK])
      with ((EvFb FB_BLANK_POWERDOWN :: mid) ++ [EvFb FB_BLANK_UNBLANK]).
    rewrite run_app.
    set (s0 := run hw (EvFb FB_BLANK_POWERDOWN :: mid) s).
    assert (H0 : lazyplug_active s0 <> 0 /\ lazymode s0 = false).
    { subst s0. cbn [run foldl].
      destruct (run_keeps_mode hw mid (step hw (EvFb FB_BLANK_POWERDOWN) s)
                  Hmid) as [Ha Hm].
      unfold run in *. rewrite Ha, Hm.
      destruct (step_control hw (EvFb FB_BLANK_POWERDOWN) s)
        as (_ & _ & Hlazy & Hact' & _).
      rewrite Hlazy, Hact'. auto. }
    destruct H0 as [Ha0 Hm0]. clearbody s0.
    cbn [run foldl step fb_state_change]. unfold lazyplug_resume.
    cbn [lazyplug_active set_idle_count].
    apply Z.eqb_neq in Ha0. rewrite Ha0. cbn. tauto. }
  clearbody s1. destruct H1 as (Hpc1 & Hsus1 & Hl1 & Hap1 & Hcp1 & Hcb1).
  assert (H2 : same_control
                 (set_cac_pending false (set_all_up_pending false s1)) s2
               /\ hotplug_log s2
                  = hotplug_log s1
                    ++ (CpuUp <$> cpus_up_to 1 (nr_cpu_ids hw - 1))
                    ++ (CpuUp <$> cpus_up_to 1 (nr_cpu_ids hw - 1))
               /\ (forall cpu, (1 <= cpu < nr_cpu_ids hw)%nat ->
                     cpu ∈ cpu_online_mask s2)).
  { subst s2. destruct cac_last; cbn [run foldl].
    - destruct (pass_all_up hw s1 Hap1 Hl1) as (Hc & Hlog & Hmask).
      set (sa := step hw EvAllUp s1) in *. clearbody sa.
      split_control Hc. cbn in Hcp, Hcac, Hlazy.
      destruct (pass_cac hw sa) as (Hc' & Hlog' & Hmask'); try congruence.
      set (sb := step hw EvCac sa) in *. clearbody sb.
      split_control Hc'. cbn in *.
      split; [unfold same_control; cbn; repeat split; congruence|].
      split; [now rewrite Hlog', Hlog, <- app_assoc|].
      intros cpu Hcpu. apply Hmask'. auto.
    - destruct (pass_cac hw s1 Hcp1 Hcb1 Hl1) as (Hc & Hlog & Hmask).
      set (sa := step hw EvCac s1) in *. clearbody sa.
      split_control Hc. cbn in Hap, Hlazy.
      destruct (pass_all_up hw sa) as (Hc' & Hlog' & Hmask'); try congruence.
      set (sb := step hw EvAllUp sa) in *. clearbody sb.
      split_control Hc'. cbn in *.
      split; [unfold same_control; cbn; repeat split; congruence|].
      split; [now rewrite Hlog', Hlog, <- app_assoc|].
      intros cpu Hcpu. apply Hmask'. auto. }
  clearbody s2. destruct H2 as (Hc & Hlog & Hmask). split_control Hc.
  cbn in *. rewrite (issued_app _ _ _ Hlog).
  repeat split; try congruence; [|now apply Hmask].
  apply elem_of_app. left. apply list_elem_of_fmap. exists cpu.
  split; [reflexivity|]. apply elem_of_cpus_up_to. lia.
Qed.

Lemma C5_suspend_resume_witness :
  let s1 :=
    run exynos7870
      (EvFb FB_BLANK_POWERDOWN
       :: [EvWork 0 (fun _ => 0); EvCac] ++ [EvFb FB_BLANK_UNBLANK])
      exynos_init in
  let s2 := run exynos7870 [EvAllUp; EvCac] s1 in
  persist_count s1 = BUSY_PERSISTENCE
  /\ suspended s1 = false
  /\ persist_count s2 = BUSY_PERSISTENCE
  /\ suspended s2 = false
  /\ BUSY_PERSISTENCE = 26
  /\ issued s1 s2
     = (CpuUp <$> cpus_up_to 1 (nr_cpu_ids exynos7870 - 1))
       ++ (CpuUp <$> cpus_up_to 1 (nr_cpu_ids exynos7870 - 1))
  /\ (forall cpu, (1 <= cpu < nr_cpu_ids exynos7870)%nat ->
        CpuUp cpu ∈ issued s1 s2 /\ cpu ∈ cpu_online_mask s2).
Proof.
  apply (C5_suspend_resume_restores_pool exynos7870 exynos_init
           [EvWork 0 (fun _ => 0); EvCac] true).
  - vm_compute. congruence.
  - reflexivity.
  - repeat constructor.
Defined.

(** C5, the claim as worded, fails for a starting state in lazy mode: the
    passes queued by the resume request CPUs 1, 2 and 3 only, and CPUs 4 to
    7, taken offline on entry to lazy mode, stay offline. *)
Lemma C5_counterexample :
  let s := lazyplug_enter_lazy true exynos_init in
  let s1 :=
    run exynos7870 [EvFb FB_BLANK_POWERDOWN; EvFb FB_BLANK_UNBLANK] s in
  let s2 := run exynos7870 [EvAllUp; EvCac] s1 in
  lazyplug_active s = 1
  /\ issued s1 s2 = (CpuUp <$> [1; 2; 3; 1; 2; 3]%nat)
  /\ cpu_online 4 s2 = false
  /\ cpu_online 5 s2 = false
  /\ cpu_online 6 s2 = false
  /\ cpu_online 7 s2 = false.
Proof. vm_compute. repeat split. Qed.

(** ** C6: entering and leaving lazy mode *)

Lemma ticks_keep_profile hw samples s :
  nr_run_profile_sel (ticks hw samples s) = nr_run_profile_sel s
  /\ Lnr_run_profile_sel (ticks hw samples s) = Lnr_run_profile_sel s
  /\ lazymode (ticks hw samples s) = lazymode s.
Proof.
  revert s. induction samples as [|i samples IH]; intros s; cbn [ticks foldl].
  - auto.
  - destruct (IH (lazyplug_work_fn hw i.1 i.2 s)) as (Hsel & HLnr & Hlazy).
    unfold ticks in *. rewrite Hsel, HLnr, Hlazy.
    destruct (lazyplug_work_fn_summary hw i.1 i.2 s) as (Hctl & _).
    split_control Hctl. cbn in *. auto.
Qed.

(** C6.  Starting outside lazy mode, [lazyplug_enter_lazy(true)] saves the
    profile selector and switches to the lazy profile (6), and
    [lazyplug_enter_lazy(false)] restores exactly the selector held before
    entry and clears [lazymode], whatever ticks ran in between. *)
Theorem C6_lazy_round_trip_restores_profile hw s samples :
  lazymode s = false ->
  let s1 := lazyplug_enter_lazy true s in
  let s2 := ticks hw samples s1 in
  let s3 := lazyplug_enter_lazy false s2 in
  Lnr_run_profile_sel s1 = nr_run_profile_sel s
  /\ nr_run_profile_sel s1 = LAZY_PROFILE
  /\ lazymode s1 = true
  /\ nr_run_profile_sel s3 = nr_run_profile_sel s
  /\ lazymode s3 = false.
Proof.
  intros Hl s1 s2 s3.
  assert (H1 : Lnr_run_profile_sel s1 = nr_run_profile_sel s
               /\ nr_run_profile_sel s1 = LAZY_PROFILE
               /\ lazymode s1 = true).
  { subst s1. unfold lazyplug_enter_lazy. rewrite Hl. cbn. auto. }
  destruct H1 as (HLnr1 & Hsel1 & Hl1).
  destruct (ticks_keep_profile hw samples s1) as (Hsel2 & HLnr2 & Hl2).
  fold s2 in Hsel2, HLnr2, Hl2.
  do 3 (split; [assumption|]).
  subst s3. unfold lazyplug_enter_lazy. rewrite Hl2, Hl1. cbn.
  split; [congruence|reflexivity].
Qed.

Lemma C6_lazy_round_trip_witness :
  let s := set_nr_run_profile_sel 2 exynos_init in
  let s1 := lazyplug_enter_lazy true s in
  let s2 := ticks exynos7870 [(40000, fun _ => 0); (0, fun _ => 0)] s1 in
  let s3 := lazyplug_enter_lazy false s2 in
  Lnr_run_profile_sel s1 = nr_run_profile_sel s
  /\ nr_run_profile_sel s1 = LAZY_PROFILE
  /\ lazymode s1 = true
  /\ nr_run_profile_sel s3 = nr_run_profile_sel s
  /\ lazymode s3 = false.
Proof.
  apply (C6_lazy_round_trip_restores_profile exynos7870
           (set_nr_run_profile_sel 2 exynos_init)
           [(40000, fun _ => 0); (0, fun _ => 0)]).
  reflexivity.
Defined.

(** ** C3: the per-CPU unplug threshold *)

(** What [cpu_nr_run_threshold << 1 / (num_online_cpus())] computes: the
    shift count is [1 / n], which is 1 when one CPU is online and 0
    otherwise, so the threshold is the base threshold unless a single CPU is
    online, when it is doubled. *)
Lemma l_nr_threshold_cases s :
  1 <= num_online_cpus s ->
  0 <= cpu_nr_run_threshold s < 2 ^ 30 ->
  l_nr_threshold s
  = if num_online_cpus s =? 1
    then 2 * cpu_nr_run_threshold s
    else cpu_nr_run_threshold s.
Proof.
  intros Hn Hthr. unfold l_nr_threshold.
  destruct (Z.eqb_spec (num_online_cpus s) 1) as [E|NE].
  - rewrite E. change (1 / 1) with 1.
    rewrite shl32_small by lia. unfold int32.
    rewrite u32_small by lia.
    destruct (Z.ltb_spec (cpu_nr_run_threshold s * 2 ^ 1) (2 ^ 31)); lia.
  - rewrite Z.div_small by lia.
    rewrite shl32_small by lia. unfold int32.
    rewrite u32_small by lia.
    destruct (Z.ltb_spec (cpu_nr_run_threshold s * 2 ^ 0) (2 ^ 31)); lia.
Qed.

(** C3, the code at the failing input.  Four CPUs online, the default base
    threshold 1175, every CPU with load 600: the threshold [unplug_cpu]
    compares with is 1175, not (1175 * 2) / 4 = 587, and CPUs 3, 2 and 1
    are all requested offline although their load is not below 587. *)
Theorem C3_unplug_threshold_at_four_online :
  let s :=
    update_per_cpu_stat (fun _ => 600)
      (set_cpu_online_mask (list_to_set [0; 1; 2; 3]%nat) exynos_init) in
  num_online_cpus s = 4
  /\ cpu_nr_run_threshold s = 1175
  /\ l_nr_threshold s = 1175
  /\ spec_unplug_threshold s = 587
  /\ ip_info s 3 = 600
  /\ issued s (unplug_cpu exynos7870 0 s) = [CpuDown 3; CpuDown 2; CpuDown 1].
Proof. vm_compute. repeat split. Qed.

(** * Further properties of the driver *)

(** ** set_cpus: the cap [nr_possible_cores] *)

Lemma elem_of_cpus_down_to n lo cpu :
  (1 <= lo)%nat ->
  cpu ∈ cpus_down_to (n - 1) lo <-> (lo <= cpu /\ cpu < n)%nat.
Proof.
  intros Hlo. unfold cpus_down_to.
  rewrite elem_of_reverse, elem_of_cpus_up_to. lia.
Qed.

Lemma NoDup_cpus_down_to hi lo : NoDup (cpus_down_to hi lo).
Proof.
  unfold cpus_down_to, cpus_up_to. rewrite reverse_Permutation.
  apply NoDup_seq.
Qed.

(** The loop of [set_cpus] over any list of distinct CPUs. *)
Lemma set_cpus_loop (l : list nat) s :
  NoDup l ->
  let body := fun (s : state) (cpu : nat) =>
    if negb (cpu_online cpu s) then s
    else if nr_possible_cores s <=? Z.of_nat cpu then cpu_down cpu s
    else s in
  let hit := fun cpu =>
    cpu_online cpu s && (nr_possible_cores s <=? Z.of_nat cpu) in
  hotplug_only s (foldl body s l)
  /\ hotplug_log (foldl body s l)
     = hotplug_log s ++ (CpuDown <$> List.filter hit l)
  /\ (forall cpu, cpu ∈ cpu_online_mask (foldl body s l)
        <-> cpu ∈ cpu_online_mask s
            /\ ~ (cpu ∈ l /\ nr_possible_cores s <= Z.of_nat cpu)).
Proof.
  intros Hnd body hit. subst hit. revert s.
  induction l as [|c l IH]; intros s; cbn [foldl List.filter].
  - split; [apply hotplug_only_refl|]. rewrite app_nil_r.
    split; [reflexivity|]. intros cpu. rewrite elem_of_nil. tauto.
  - apply NoDup_cons in Hnd as [Hc Hnd].
    assert (Hs1 : hotplug_only s (body s c)
              /\ hotplug_log (body s c)
                 = hotplug_log s
                   ++ (if cpu_online c s
                          && (nr_possible_cores s <=? Z.of_nat c)
                       then [CpuDown c] else [])
              /\ (forall x, x ∈ cpu_online_mask (body s c)
                    <-> x ∈ cpu_online_mask s
                        /\ ~ (x = c /\ nr_possible_cores s <= Z.of_nat c))).
    { unfold body, cpu_online.
      destruct (bool_decide_reflect (c ∈ cpu_online_mask s)) as [Hon|Hoff];
        cbn [negb andb].
      - destruct (Z.leb_spec (nr_possible_cores s) (Z.of_nat c)).
        + split; [apply cpu_down_only|]. split; [reflexivity|].
          intros x. cbn. rewrite elem_of_difference, elem_of_singleton.
          tauto.
        + rewrite app_nil_r. split; [apply hotplug_only_refl|].
          split; [reflexivity|]. intros x. intuition lia.
      - rewrite app_nil_r. split; [apply hotplug_only_refl|].
        split; [reflexivity|]. intros x. intuition congruence. }
    destruct Hs1 as (Honly1 & Hlog1 & Hmask1).
    destruct (IH Hnd (body s c)) as (Honly & Hlog & Hmask).
    pose proof (hotplug_only_same_control _ _ Honly1) as Hctl.
    split_control Hctl.
    assert (Hext : List.filter
                     (fun cpu => cpu_online cpu (body s c)
                        && (nr_possible_cores (body s c) <=? Z.of_nat cpu)) l
                   = List.filter
                       (fun cpu => cpu_online cpu s
                          && (nr_possible_cores s <=? Z.of_nat cpu)) l).
    { apply List.filter_ext_in. intros x Hx. apply list_elem_of_In in Hx.
      rewrite Hnpc. f_equal. unfold cpu_online.
      apply bool_decide_ext. rewrite Hmask1.
      intuition congruence. }
    split; [eapply hotplug_only_trans; eassumption|]. split.
    + rewrite Hlog, Hlog1, Hext, <- app_assoc. f_equal.
      now destruct (_ && _).
    + intros cpu. rewrite Hmask, Hmask1, Hnpc, elem_of_cons.
      destruct (decide (cpu = c)) as [->|Hne]; tauto.
Qed.

Lemma set_cpus_loop_noop (l : list nat) s :
  (forall cpu, cpu ∈ l -> cpu ∈ cpu_online_mask s ->
               Z.of_nat cpu < nr_possible_cores s) ->
  foldl (fun (s : state) (cpu : nat) =>
           if negb (cpu_online cpu s) then s
           else if nr_possible_cores s <=? Z.of_nat cpu then cpu_down cpu s
           else s) s l
  = s.
Proof.
  induction l as [|c l IH]; intros Hl; cbn [foldl]; [reflexivity|].
  assert (Hc : (if negb (cpu_online c s) then s
                else if nr_possible_cores s <=? Z.of_nat c
                     then cpu_down c s else s) = s).
  { unfold cpu_online.
    destruct (bool_decide_reflect (c ∈ cpu_online_mask s)) as [Hon|Hoff];
      cbn [negb]; [|reflexivity].
    specialize (Hl c ltac:(apply list_elem_of_here) Hon).
    destruct (Z.leb_spec (nr_possible_cores s) (Z.of_nat c)); [lia|].
    reflexivity. }
  rewrite Hc. apply IH. intros cpu Hin. apply Hl. now apply list_elem_of_further.
Qed.

Lemma elem_of_capped_cpus hw s cpu :
  cpu ∈ capped_cpus hw s
  <-> (1 <= cpu < nr_cpu_ids hw)%nat
      /\ cpu ∈ cpu_online_mask s
      /\ nr_possible_cores s <= Z.of_nat cpu.
Proof.
  unfold capped_cpus, cpu_online.
  rewrite list_elem_of_In, List.filter_In, <- list_elem_of_In.
  rewrite elem_of_cpus_down_to by lia.
  rewrite andb_true_iff, bool_decide_eq_true, Z.leb_le. tauto.
Qed.

(** [set_cpus] requests offline exactly the online CPUs from 1 to
    [nr_cpu_ids - 1] that lie at or above [nr_possible_cores], highest
    first; afterwards no such CPU is online, every other CPU (CPU 0
    included) is as before, and a second call changes nothing. *)
Theorem set_cpus_enforces_cap hw s :
  issued s (set_cpus hw s) = (CpuDown <$> capped_cpus hw s)
  /\ (forall cpu, cpu ∈ cpu_online_mask (set_cpus hw s)
        <-> cpu ∈ cpu_online_mask s
            /\ ~ ((1 <= cpu < nr_cpu_ids hw)%nat
                  /\ nr_possible_cores s <= Z.of_nat cpu))
  /\ set_cpus hw (set_cpus hw s) = set_cpus hw s.
Proof.
  destruct (set_cpus_loop (cpus_down_to (nr_cpu_ids hw - 1) 1) s
              (NoDup_cpus_down_to _ _)) as (Honly & Hlog & Hmask).
  fold (set_cpus hw s) in Honly, Hlog, Hmask.
  fold (capped_cpus hw s) in Hlog.
  assert (Hm : forall cpu, cpu ∈ cpu_online_mask (set_cpus hw s)
             <-> cpu ∈ cpu_online_mask s
                 /\ ~ ((1 <= cpu < nr_cpu_ids hw)%nat
                       /\ nr_possible_cores s <= Z.of_nat cpu)).
  { intros cpu. rewrite Hmask, elem_of_cpus_down_to by lia. tauto. }
  split; [now apply issued_app|]. split; [exact Hm|].
  unfold set_cpus at 1. apply set_cpus_loop_noop.
  intros cpu Hin Hon. apply elem_of_cpus_down_to in Hin; [|lia].
  apply Hm in Hon as [_ Hn].
  apply hotplug_only_same_control in Honly. split_control Honly.
  rewrite Hnpc. lia.
Qed.

(** ** The tick, request by request *)

Lemma work_fn_decision_log hw c s :
  hotplug_log (work_fn_decision hw c s)
  = hotplug_log s ++ decision_requests hw c s.
Proof.
  rewrite work_fn_decision_eq. unfold decision_requests.
  destruct (suspended s); [now rewrite app_nil_r|].
  destruct (c =? 1).
  - cbn zeta. destruct (_ && _); [|cbn; now rewrite app_nil_r].
    now rewrite foldl_cpu_down_log.
  - now rewrite cpu_all_ctrl_log.
Qed.

Lemma decision_requests_ext hw c s s' :
  same_control s s' -> decision_requests hw c s' = decision_requests hw c s.
Proof.
  intros H. split_control H. unfold decision_requests, scale_up_cpus.
  now rewrite Hpc, Hidle, Hsus, Hlazy.
Qed.

(** The sampling part of the tick with the exact requests of the cap. *)
Lemma work_fn_sample_exact hw avg cpu_avg s :
  let r := work_fn_sample hw avg cpu_avg s in
  let capped :=
    if nr_possible_cores s <? u32 (NR_CPUS hw)
    then capped_cpus hw s else [] in
  r.1 = evaluate hw avg s
  /\ same_control s r.2
  /\ hotplug_log r.2 = hotplug_log s ++ (CpuDown <$> capped)
  /\ (forall cpu, cpu ∈ cpu_online_mask r.2
        <-> cpu ∈ cpu_online_mask s /\ cpu ∉ capped).
Proof.
  intros r capped. subst r capped.
  destruct (work_fn_sample_summary hw avg cpu_avg s) as (Hev & Hctl & _).
  split; [exact Hev|]. split; [exact Hctl|]. clear Hev Hctl.
  unfold work_fn_sample.
  destruct (calculate_thread_stats hw avg s) as [c s1] eqn:Hcalc.
  pose proof (calculate_thread_stats_state hw avg s) as Hs1.
  rewrite Hcalc in Hs1. cbn [snd] in Hs1. subst s1.
  set (s2 := update_per_cpu_stat cpu_avg _).
  assert (Hcap : capped_cpus hw s2 = capped_cpus hw s) by reflexivity.
  change (nr_possible_cores s2) with (nr_possible_cores s).
  cbn zeta. destruct (nr_possible_cores s <? u32 (NR_CPUS hw)); cbn [snd].
  - destruct (set_cpus_loop (cpus_down_to (nr_cpu_ids hw - 1) 1) s2
                (NoDup_cpus_down_to _ _)) as (_ & Hlog & Hmask).
    fold (set_cpus hw s2) in Hlog, Hmask. fold (capped_cpus hw s2) in Hlog.
    rewrite Hcap in Hlog. split; [exact Hlog|].
    intros cpu. rewrite Hmask, elem_of_capped_cpus.
    rewrite elem_of_cpus_down_to by lia.
    change (cpu_online_mask s2) with (cpu_online_mask s).
    change (nr_possible_cores s2) with (nr_possible_cores s). tauto.
  - cbn. rewrite app_nil_r. split; [reflexivity|].
    intros cpu. rewrite elem_of_nil. tauto.
Qed.

(** The log of one run of the tick: the requests of the cap, then those of
    the decision block. *)
Lemma lazyplug_work_fn_log hw avg cpu_avg s :
  hotplug_log (lazyplug_work_fn hw avg cpu_avg s)
  = hotplug_log s
    ++ (if lazyplug_active s =? 0 then []
        else (CpuDown <$> (if nr_possible_cores s <? u32 (NR_CPUS hw)
                           then capped_cpus hw s else []))
             ++ decision_requests hw (evaluate hw avg s) s).
Proof.
  unfold lazyplug_work_fn.
  destruct (lazyplug_active s =? 0); cbn [negb]; [cbn; now rewrite app_nil_r|].
  destruct (work_fn_sample_exact hw avg cpu_avg s) as (Hev & Hctl & Hlog & _).
  destruct (work_fn_sample hw avg cpu_avg s) as [c s3]. cbn [fst snd] in *.
  subst c. change (hotplug_log (queue_lazyplug_work ?x)) with (hotplug_log x).
  rewrite work_fn_decision_log, Hlog, (decision_requests_ext _ _ _ _ Hctl).
  now rewrite <- app_assoc.
Qed.

(** ** The evaluator: monotonicity *)

(** A larger sample (as the 32-bit value the evaluator works on) never
    yields a lower tier. *)
Theorem evaluate_monotone_in_sample hw a b s :
  u32 a <= u32 b -> evaluate hw a s <= evaluate hw b s.
Proof.
  intros Hab.
  destruct (evaluate_spec hw a s) as (Hra & Hla & _).
  destruct (evaluate_spec hw b s) as (Hrb & _ & Hhb).
  destruct (Z.le_gt_cases (evaluate hw a s) (evaluate hw b s)) as [?|Hgt];
    [assumption|].
  specialize (Hhb ltac:(lia)).
  specialize (Hla (evaluate hw b s) ltac:(lia)). lia.
Qed.

Lemma evaluate_monotone_in_sample_witness :
  evaluate exynos7870 3000 exynos_init <= evaluate exynos7870 9000 exynos_init.
Proof.
  apply (evaluate_monotone_in_sample exynos7870 3000 9000 exynos_init).
  vm_compute. congruence.
Defined.

(** A higher previous tier never yields a lower tier: the hysteresis only
    raises thresholds at or above the previous tier.  The hypotheses rule
    out 32-bit overflow of the adjusted, shifted thresholds. *)
Theorem evaluate_monotone_in_previous_tier hw avg s last1 last2 :
  let sel := nr_run_profile_sel s in
  let hyst := nr_run_hysteresis s in
  0 <= scan_shift hw sel ->
  0 <= hyst ->
  (forall j, 1 <= j < threshold_size sel ->
     (profile_entry sel (j - 1) + hyst) * 2 ^ scan_shift hw sel < 2 ^ 32) ->
  last1 <= last2 ->
  evaluate hw avg (set_nr_run_last last1 s)
  <= evaluate hw avg (set_nr_run_last last2 s).
Proof.
  intros sel hyst Hshift Hhyst Hfit Hlast.
  destruct (evaluate_spec hw avg (set_nr_run_last last1 s))
    as (Hr1 & Hl1 & _).
  destruct (evaluate_spec hw avg (set_nr_run_last last2 s))
    as (Hr2 & _ & Hh2).
  cbn [nr_run_profile_sel nr_run_hysteresis nr_run_last set_nr_run_last]
    in *.
  fold sel hyst in Hr1, Hl1, Hr2, Hh2.
  set (r1 := evaluate hw avg (set_nr_run_last last1 s)) in *.
  set (r2 := evaluate hw avg (set_nr_run_last last2 s)) in *.
  destruct (Z.le_gt_cases r1 r2) as [?|Hgt]; [assumption|].
  specialize (Hh2 ltac:(lia)). specialize (Hl1 r2 ltac:(lia)).
  assert (Hle : tested_threshold hw sel hyst last2 r2
                <= tested_threshold hw sel hyst last1 r2).
  { unfold tested_threshold.
    pose proof (profile_entry_range sel (r2 - 1)) as He.
    specialize (Hfit r2 ltac:(lia)).
    assert (Hpow : 0 < 2 ^ scan_shift hw sel)
      by (apply Z.pow_pos_nonneg; lia).
    destruct (Z.leb_spec last2 r2), (Z.leb_spec last1 r2); try lia.
    rewrite (u32_small (_ + _)) by nia.
    rewrite !shl32_small by (try lia; nia). nia. }
  lia.
Qed.

Lemma evaluate_monotone_in_previous_tier_witness :
  evaluate exynos7870 3072 (set_nr_run_last 1 exynos_init)
  <= evaluate exynos7870 3072 (set_nr_run_last 2 exynos_init).
Proof.
  apply (evaluate_monotone_in_previous_tier exynos7870 3072 exynos_init 1 2).
  - vm_compute. congruence.
  - vm_compute. congruence.
  - intros j Hj. change (threshold_size (nr_run_profile_sel exynos_init))
      with 4 in Hj.
    assert (Hj' : 1 <= j < 4) by lia. clear Hj.
    split_range j; vm_compute; reflexivity.
  - lia.
Defined.

(** ** The evaluator: the hysteresis band *)

(** A sample inside the band above the boundary of tier [k] (above the
    scaled threshold [nr_run_thresholds[k - 1] << shift], at most the scaled
    threshold with [nr_run_hysteresis] added) is placed in the tier the
    previous tick recorded: in [k] when [nr_run_last] is [k], in [k + 1]
    when it is [k + 1].  The two adjusted thresholds involved are assumed
    not to wrap around in 32 bits. *)
Theorem hysteresis_band_keeps_previous_tier hw s k avg :
  let sel := nr_run_profile_sel s in
  let hyst := nr_run_hysteresis s in
  let boundary := Z.shiftl (profile_entry sel (k - 1)) (scan_shift hw sel) in
  let band :=
    Z.shiftl (profile_entry sel (k - 1) + hyst) (scan_shift hw sel) in
  0 <= sel < 7 ->
  1 <= k < threshold_size sel ->
  0 <= scan_shift hw sel ->
  0 <= hyst ->
  (profile_entry sel (k - 1) + hyst) * 2 ^ scan_shift hw sel < 2 ^ 32 ->
  (k + 1 < threshold_size sel ->
   (profile_entry sel k + hyst) * 2 ^ scan_shift hw sel < 2 ^ 32) ->
  boundary < avg <= band ->
  evaluate hw avg (set_nr_run_last k s) = k
  /\ evaluate hw avg (set_nr_run_last (k + 1) s) = k + 1.
Proof.
  intros sel hyst boundary band Hsel Hk Hshift Hhyst Hfit Hfit' Havg.
  pose proof (profile_entry_range sel (k - 1)) as Hek.
  assert (Hpow : 0 < 2 ^ scan_shift hw sel) by (apply Z.pow_pos_nonneg; lia).
  assert (Hb : boundary = profile_entry sel (k - 1) * 2 ^ scan_shift hw sel)
    by (unfold boundary; apply Z.shiftl_mul_pow2; lia).
  assert (Hd : band
               = (profile_entry sel (k - 1) + hyst) * 2 ^ scan_shift hw sel)
    by (unfold band; apply Z.shiftl_mul_pow2; lia).
  assert (Hu : u32 avg = avg) by (apply u32_small; nia).
  (* every tier below [k] is tested bare and lies below the sample *)
  assert (Hbelow : forall last j, 1 <= j < k -> k <= last ->
            tested_threshold hw sel hyst last j < avg).
  { intros last j Hj Hlast. unfold tested_threshold.
    destruct (Z.leb_spec last j) as [?|_]; [lia|].
    pose proof (profile_entry_range sel (j - 1)) as Hej.
    pose proof (profile_entry_mono sel j k Hsel ltac:(lia) ltac:(lia)
                  ltac:(lia)) as Hmono.
    rewrite shl32_small by (try lia; nia). nia. }
  split.
  - apply evaluate_unique;
      cbn [nr_run_profile_sel nr_run_hysteresis nr_run_last set_nr_run_last];
      fold sel hyst; rewrite ?Hu; [exact Hk| |].
    + unfold tested_threshold. rewrite Z.leb_refl.
      rewrite (u32_small (_ + _)) by nia.
      rewrite shl32_small by (try lia; nia). lia.
    + intros j Hj. apply Hbelow; lia.
  - assert (Hbelow' : forall j, 1 <= j < k + 1 ->
              tested_threshold hw sel hyst (k + 1) j < avg).
    { intros j Hj. destruct (Z.eq_dec j k) as [->|?];
        [|apply Hbelow; lia].
      unfold tested_threshold.
      destruct (Z.leb_spec (k + 1) k) as [?|_]; [lia|].
      rewrite shl32_small by (try lia; nia). lia. }
    destruct (Z.eq_dec (k + 1) (threshold_size sel)) as [Etop|Ntop].
    + pose proof (evaluate_top hw avg (set_nr_run_last (k + 1) s)) as Htop.
      cbn [nr_run_profile_sel nr_run_hysteresis nr_run_last set_nr_run_last]
        in Htop.
      fold sel hyst in Htop. rewrite Hu in Htop. rewrite Htop; [lia|].
      intros j Hj. apply Hbelow'. lia.
    + apply evaluate_unique;
        cbn [nr_run_profile_sel nr_run_hysteresis nr_run_last
             set_nr_run_last];
        fold sel hyst; rewrite ?Hu; [lia| |exact Hbelow'].
      unfold tested_threshold. rewrite Z.leb_refl.
      replace (k + 1 - 1) with k by lia.
      pose proof (profile_entry_range sel k) as Hek1.
      pose proof (profile_entry_mono sel k (k + 1) Hsel ltac:(lia) ltac:(lia)
                    ltac:(lia)) as Hmono.
      replace (k + 1 - 1) with k in Hmono by lia.
      specialize (Hfit' ltac:(lia)).
      rewrite (u32_small (_ + _)) by nia.
      rewrite shl32_small by (try lia; nia). nia.
Qed.

Lemma hysteresis_band_witness :
  evaluate exynos7870 (Z.shiftl 11 8 + 1) (set_nr_run_last 1 exynos_init) = 1
  /\ evaluate exynos7870 (Z.shiftl 11 8 + 1) (set_nr_run_last 2 exynos_init)
     = 2.
Proof.
  apply (hysteresis_band_keeps_previous_tier exynos7870 exynos_init 1
           (Z.shiftl 11 8 + 1));
    vm_compute; intuition congruence.
Defined.

(** ** The tick: a tier above the lowest *)

(** When an active, non-suspended tick outside lazy mode sees a tier above
    the lowest, it resets [idle_count] and requests every CPU from 1 to
    [nr_cpu_ids - 1] online, after the requests of the cap: the CPUs the cap
    has just taken offline are brought back by the same tick, and all CPUs
    from 1 on are online when it returns. *)
Theorem tick_tier_increase_wakes_all hw avg cpu_avg s :
  lazyplug_active s <> 0 ->
  suspended s = false ->
  lazymode s = false ->
  evaluate hw avg s <> 1 ->
  let s' := lazyplug_work_fn hw avg cpu_avg s in
  idle_count s' = 0
  /\ issued s s'
     = (CpuDown <$> (if nr_possible_cores s <? u32 (NR_CPUS hw)
                     then capped_cpus hw s else []))
       ++ (CpuUp <$> cpus_up_to 1 (nr_cpu_ids hw - 1))
  /\ (forall cpu, (1 <= cpu < nr_cpu_ids hw)%nat ->
        cpu ∈ cpu_online_mask s').
Proof.
  intros Hact Hsus Hlazy Hev s'.
  apply Z.eqb_neq in Hact, Hev.
  destruct (lazyplug_work_fn_summary hw avg cpu_avg s)
    as (_ & _ & Hidle & _).
  fold s' in Hidle. rewrite Hact, Hsus, Hev in Hidle. cbn in Hidle.
  split; [exact Hidle|]. split.
  - apply issued_app. subst s'. rewrite lazyplug_work_fn_log, Hact.
    unfold decision_requests, scale_up_cpus. now rewrite Hsus, Hev, Hlazy.
  - intros cpu Hcpu. subst s'. unfold lazyplug_work_fn.
    rewrite Hact. cbn [negb].
    destruct (work_fn_sample_exact hw avg cpu_avg s) as (Hc & Hctl & _).
    destruct (work_fn_sample hw avg cpu_avg s) as [c s3].
    cbn [fst snd] in Hc, Hctl. subst c. split_control Hctl.
    rewrite work_fn_decision_eq, Hsus0, Hsus, Hev.
    change (cpu_online_mask (queue_lazyplug_work ?x))
      with (cpu_online_mask x).
    apply cpu_all_ctrl_up_mask. right. split; [|lia].
    unfold scale_up_cpus. cbn [lazymode set_idle_count set_persist_count].
    rewrite Hlazy0, Hlazy. apply elem_of_cpus_up_to. lia.
Qed.

Lemma tick_tier_increase_witness :
  let s := set_nr_possible_cores 4 exynos_init in
  let s' := lazyplug_work_fn exynos7870 40000 (fun _ => 0) s in
  idle_count s' = 0
  /\ issued s s'
     = (CpuDown <$> (if nr_possible_cores s <? u32 (NR_CPUS exynos7870)
                     then capped_cpus exynos7870 s else []))
       ++ (CpuUp <$> cpus_up_to 1 (nr_cpu_ids exynos7870 - 1))
  /\ (forall cpu, (1 <= cpu < nr_cpu_ids exynos7870)%nat ->
        cpu ∈ cpu_online_mask s').
Proof.
  apply (tick_tier_increase_wakes_all exynos7870 40000 (fun _ => 0)
           (set_nr_possible_cores 4 exynos_init));
    vm_compute; congruence.
Defined.

(** ** The cooldown after a resume *)

(** While more ticks of cooldown remain than ticks run, no tick requests a
    CPU offline (the cap not being engaged), whatever the load. *)
Lemma cooldown_run hw samples s :
  lazyplug_active s <> 0 ->
  suspended s = false ->
  u32 (NR_CPUS hw) <= nr_possible_cores s ->
  Z.of_nat (length samples) < persist_count s ->
  let s' := ticks hw samples s in
  lazyplug_active s' <> 0
  /\ suspended s' = false
  /\ u32 (NR_CPUS hw) <= nr_possible_cores s'
  /\ persist_count s' = persist_count s - Z.of_nat (length samples)
  /\ exists d,
       hotplug_log s' = hotplug_log s ++ d
       /\ forall cpu, CpuDown cpu ∉ d.
Proof.
  revert s. induction samples as [|i samples IH];
    intros s Hact Hsus Hcap Hlen; cbn [ticks foldl length].
  - do 3 (split; [assumption|]). split; [cbn; lia|].
    exists []. rewrite app_nil_r. split; [reflexivity|].
    intros cpu H. inversion H.
  - cbn [length] in Hlen.
    set (s1 := lazyplug_work_fn hw i.1 i.2 s).
    destruct (lazyplug_work_fn_summary hw i.1 i.2 s) as (Hctl & Hpc & _).
    pose proof (lazyplug_work_fn_log hw i.1 i.2 s) as Hlog.
    fold s1 in Hctl, Hpc, Hlog. clearbody s1. split_control Hctl.
    cbn [lazyplug_active suspended nr_possible_cores set_work_pending
         set_idle_count set_persist_count] in *.
    pose proof Hact as Hact'. apply Z.eqb_neq in Hact'.
    rewrite Hact', Hsus in Hpc. cbn [negb andb] in Hpc.
    destruct (Z.ltb_spec 0 (persist_count s)); [|lia].
    rewrite Hact' in Hlog.
    destruct (Z.ltb_spec (nr_possible_cores s) (u32 (NR_CPUS hw))); [lia|].
    cbn [fmap list_fmap app] in Hlog.
    assert (IH1 := IH s1 ltac:(congruence) ltac:(congruence) ltac:(lia)
                     ltac:(lia)).
    cbn zeta in IH1. unfold ticks in IH1.
    destruct IH1 as (Hact2 & Hsus2 & Hcap2 & Hpc2 & d & Hlog2 & Hd).
    split; [exact Hact2|]. split; [exact Hsus2|]. split; [exact Hcap2|].
    split; [lia|].
    exists (decision_requests hw (evaluate hw i.1 s) s ++ d).
    split; [now rewrite Hlog2, Hlog, app_assoc|].
    intros cpu Hin. apply elem_of_app in Hin as [Hin|Hin]; [|now apply Hd in Hin].
    unfold decision_requests in Hin. rewrite Hsus in Hin.
    destruct (_ =? 1) in Hin.
    + destruct (Z.ltb_spec 0 (persist_count s)); [|lia].
      destruct (Z.eqb_spec (persist_count s - 1) 0); [lia|].
      rewrite andb_false_r in Hin. inversion Hin.
    + apply list_elem_of_fmap in Hin as (? & ? & _). discriminate.
Qed.

(** After a resume with the controller active and the cap not engaged, none
    of the next 25 ticks requests any CPU offline, whatever load they see:
    the cooldown [BUSY_PERSISTENCE] = 26 holds the idle shutdown back. *)
Theorem resume_cooldown_blocks_shutdown hw s0 samples cpu :
  lazyplug_active s0 <> 0 ->
  u32 (NR_CPUS hw) <= nr_possible_cores s0 ->
  (length samples <= 25)%nat ->
  let s := fb_state_change FB_BLANK_UNBLANK s0 in
  CpuDown cpu ∉ issued s (ticks hw samples s).
Proof.
  intros Hact Hcap Hlen s.
  assert (Hs : lazyplug_active s <> 0 /\ suspended s = false
               /\ nr_possible_cores s = nr_possible_cores s0
               /\ persist_count s = 26).
  { subst s. unfold fb_state_change, lazyplug_resume.
    cbn [lazyplug_active set_idle_count].
    apply Z.eqb_neq in Hact. rewrite Hact. cbn.
    apply Z.eqb_neq in Hact. auto. }
  destruct Hs as (Hact1 & Hsus1 & Hnpc1 & Hpc1).
  destruct (cooldown_run hw samples s Hact1 Hsus1)
    as (_ & _ & _ & _ & d & Hlog & Hd); [lia|lia|].
  rewrite (issued_app _ _ _ Hlog). apply Hd.
Qed.

Lemma resume_cooldown_witness :
  let s := fb_state_change FB_BLANK_UNBLANK exynos_init in
  CpuDown 7 ∉ issued s (ticks exynos7870 (replicate 25 (0, fun _ => 0)) s).
Proof.
  apply (resume_cooldown_blocks_shutdown exynos7870 exynos_init
           (replicate 25 (0, fun _ => 0)) 7).
  - vm_compute. congruence.
  - vm_compute. congruence.
  - vm_compute. lia.
Defined.

(** Idle ticks during the cooldown: the idle counter advances up to
    [DEF_IDLE_COUNT] and nothing is requested. *)
Lemma cooldown_idle_run hw samples s :
  lazyplug_active s <> 0 ->
  suspended s = false ->
  u32 (NR_CPUS hw) <= nr_possible_cores s ->
  0 <= idle_count s <= DEF_IDLE_COUNT ->
  Z.of_nat (length samples) < persist_count s ->
  lowest_tier_run hw samples s ->
  let s' := ticks hw samples s in
  lazyplug_active s' <> 0
  /\ suspended s' = false
  /\ u32 (NR_CPUS hw) <= nr_possible_cores s'
  /\ persist_count s' = persist_count s - Z.of_nat (length samples)
  /\ idle_count s'
     = Z.min DEF_IDLE_COUNT (idle_count s + Z.of_nat (length samples))
  /\ hotplug_log s' = hotplug_log s.
Proof.
  revert s. induction samples as [|i samples IH];
    intros s Hact Hsus Hcap Hidle Hlen Hrun; cbn [ticks foldl length].
  - do 3 (split; [assumption|]). split; [cbn; lia|].
    split; [cbn; lia|reflexivity].
  - cbn [length] in Hlen. destruct Hrun as [Hev Hrun].
    set (s1 := lazyplug_work_fn hw i.1 i.2 s) in *.
    destruct (lazyplug_work_fn_summary hw i.1 i.2 s)
      as (Hctl & Hpc & Hidle1 & _).
    pose proof (lazyplug_work_fn_log hw i.1 i.2 s) as Hlog.
    fold s1 in Hctl, Hpc, Hidle1, Hlog. clearbody s1. split_control Hctl.
    cbn [lazyplug_active suspended nr_possible_cores set_work_pending
         set_idle_count set_persist_count] in *.
    pose proof Hact as Hact'. apply Z.eqb_neq in Hact'.
    rewrite Hact', Hsus in Hpc. rewrite Hact', Hsus, Hev in Hidle1.
    cbn [negb andb] in Hpc, Hidle1.
    change (1 =? 1) with true in Hidle1.
    rewrite Hact', Hev in Hlog. unfold decision_requests in Hlog.
    rewrite Hsus in Hlog. change (1 =? 1) with true in Hlog.
    destruct (Z.ltb_spec 0 (persist_count s)); [|lia].
    destruct (Z.ltb_spec (nr_possible_cores s) (u32 (NR_CPUS hw))); [lia|].
    destruct (Z.eqb_spec (persist_count s - 1) 0); [lia|].
    rewrite andb_false_r in Hlog. cbn [fmap list_fmap app] in Hlog.
    rewrite app_nil_r in Hlog.
    assert (Hidle1' : 0 <= idle_count s1 <= DEF_IDLE_COUNT
                      /\ idle_count s1
                         = Z.min DEF_IDLE_COUNT (idle_count s + 1)).
    { rewrite Hidle1.
      destruct (Z.ltb_spec (idle_count s) DEF_IDLE_COUNT); lia. }
    destruct Hidle1' as [Hb1 Hi1].
    assert (IH1 := IH s1 ltac:(congruence) ltac:(congruence) ltac:(lia)
                     Hb1 ltac:(lia) Hrun).
    cbn zeta in IH1. unfold ticks in IH1.
    destruct IH1 as (Hact2 & Hsus2 & Hcap2 & Hpc2 & Hidle2 & Hlog2).
    split; [exact Hact2|]. split; [exact Hsus2|]. split; [exact Hcap2|].
    split; [lia|]. split; [lia|congruence].
Qed.

(** After a resume (controller active, cap not engaged) followed by idle
    load only, the first 25 ticks request nothing and the 26th requests
    CPUs 7, 6, 5, 4, 3, 2 offline: the idle shutdown waits for the cooldown
    of [BUSY_PERSISTENCE] ticks even though [DEF_IDLE_COUNT] is lower. *)
Theorem resume_idle_shutdown_on_26th_tick hw s0 samples :
  lazyplug_active s0 <> 0 ->
  u32 (NR_CPUS hw) <= nr_possible_cores s0 ->
  length samples = 26%nat ->
  let s := fb_state_change FB_BLANK_UNBLANK s0 in
  lowest_tier_run hw samples s ->
  (forall n, (n < 26)%nat -> issued s (ticks hw (take n samples) s) = [])
  /\ issued s (ticks hw samples s) = (CpuDown <$> idle_shutdown).
Proof.
  intros Hact Hcap Hlen s Hrun.
  assert (Hs : lazyplug_active s <> 0 /\ suspended s = false
               /\ nr_possible_cores s = nr_possible_cores s0
               /\ persist_count s = 26 /\ idle_count s = 0).
  { subst s. unfold fb_state_change, lazyplug_resume.
    cbn [lazyplug_active set_idle_count].
    apply Z.eqb_neq in Hact. rewrite Hact. cbn.
    apply Z.eqb_neq in Hact. auto. }
  clearbody s. destruct Hs as (Hact1 & Hsus1 & Hnpc1 & Hpc1 & Hidle1).
  split.
  - intros n Hn. rewrite <- (take_drop n samples) in Hrun.
    apply lowest_tier_run_app in Hrun as [Hrun _].
    destruct (cooldown_idle_run hw (take n samples) s Hact1 Hsus1)
      as (_ & _ & _ & _ & _ & Hlog);
      [lia|rewrite Hidle1; unfold DEF_IDLE_COUNT; lia
      |rewrite length_take; lia|exact Hrun|].
    apply issued_app. now rewrite app_nil_r.
  - rewrite <- (take_drop 25 samples) in Hrun |- *.
    apply lowest_tier_run_app in Hrun as [Hrun Hlast].
    destruct (cooldown_idle_run hw (take 25 samples) s Hact1 Hsus1)
      as (Hact2 & Hsus2 & Hcap2 & Hpc2 & Hidle2 & Hlog2);
      [lia|rewrite Hidle1; unfold DEF_IDLE_COUNT; lia
      |rewrite length_take; lia|exact Hrun|].
    rewrite length_take, Hlen in Hpc2, Hidle2.
    destruct (drop 25 samples) as [|i [|? ?]] eqn:Hd;
      apply (f_equal length) in Hd; rewrite length_drop, Hlen in Hd;
      try discriminate.
    destruct Hlast as [Hev _]. rewrite ticks_app.
    set (s2 := ticks hw (take 25 samples) s) in *. clearbody s2.
    apply issued_app. cbn [ticks foldl].
    rewrite lazyplug_work_fn_log.
    apply Z.eqb_neq in Hact2. rewrite Hact2, Hev.
    destruct (Z.ltb_spec (nr_possible_cores s2) (u32 (NR_CPUS hw))); [lia|].
    unfold decision_requests.
    rewrite Hsus2, Hpc2, Hidle2, Hpc1, Hidle1, Hlog2. reflexivity.
Qed.

Lemma resume_idle_shutdown_witness :
  let s := fb_state_change FB_BLANK_UNBLANK exynos_init in
  let samples := replicate 26 (0, fun _ : nat => 0) in
  (forall n, (n < 26)%nat -> issued s (ticks exynos7870 (take n samples) s) = [])
  /\ issued s (ticks exynos7870 samples s) = (CpuDown <$> idle_shutdown).
Proof.
  apply (resume_idle_shutdown_on_26th_tick exynos7870 exynos_init
           (replicate 26 (0, fun _ => 0))).
  - vm_compute. congruence.
  - vm_compute. congruence.
  - reflexivity.
  - vm_compute. repeat split.
Defined.

(** ** Invariants of the reachable states *)

Lemma hotplug_only_nr_run_last s s' :
  hotplug_only s s' -> nr_run_last s' = nr_run_last s.
Proof. unfold hotplug_only. intros ->. reflexivity. Qed.

Lemma work_fn_decision_nr_run_last hw c s :
  nr_run_last (work_fn_decision hw c s) = nr_run_last s.
Proof.
  rewrite work_fn_decision_eq. destruct (suspended s); [reflexivity|].
  destruct (c =? 1).
  - cbn zeta. destruct (_ && _); [|reflexivity].
    erewrite hotplug_only_nr_run_last;
      [|apply foldl_hotplug_only; intros; apply cpu_down_only].
    reflexivity.
  - erewrite hotplug_only_nr_run_last; [|apply cpu_all_ctrl_only].
    reflexivity.
Qed.

(** An active tick records the tier it computed; an inactive one leaves
    [nr_run_last] alone. *)
Lemma lazyplug_work_fn_nr_run_last hw avg cpu_avg s :
  nr_run_last (lazyplug_work_fn hw avg cpu_avg s)
  = if lazyplug_active s =? 0 then nr_run_last s else evaluate hw avg s.
Proof.
  unfold lazyplug_work_fn.
  destruct (lazyplug_active s =? 0); cbn [negb]; [reflexivity|].
  unfold work_fn_sample.
  destruct (calculate_thread_stats hw avg s) as [c s1] eqn:Hcalc.
  pose proof (calculate_thread_stats_state hw avg s) as Hs1.
  rewrite Hcalc in Hs1. cbn [snd] in Hs1.
  assert (Hc : c = evaluate hw avg s) by (unfold evaluate; now rewrite Hcalc).
  subst s1 c. cbn zeta.
  change (nr_run_last (queue_lazyplug_work ?x)) with (nr_run_last x).
  destruct (_ <? u32 (NR_CPUS hw)); rewrite work_fn_decision_nr_run_last.
  - destruct (set_cpus_summary hw
                (update_per_cpu_stat cpu_avg
                   (set_nr_run_last (evaluate hw avg s)
                      (set_nr_fshift
                         (if NR_RUN_ECO_MODE_PROFILE <=? nr_run_profile_sel s
                          then 1 else 3) s)))) as [Honly _].
    now rewrite (hotplug_only_nr_run_last _ _ Honly).
  - reflexivity.
Qed.

Lemma evaluate_range hw avg s : 1 <= evaluate hw avg s <= 4.
Proof.
  destruct (evaluate_spec hw avg s) as (Hr & _).
  rewrite threshold_size_cases in Hr. destruct (_ <=? _); lia.
Qed.

(** The bounds every step keeps. *)
Lemma step_keeps_bounds hw e s :
  let inv s :=
    0 <= idle_count s <= DEF_IDLE_COUNT
    /\ 0 <= persist_count s <= BUSY_PERSISTENCE
    /\ 0 <= nr_run_last s <= 4
    /\ work_pending s = true in
  inv s -> inv (step hw e s).
Proof.
  intros inv (Hidle & Hpc & Hlast & Hwp). subst inv. cbn beta.
  unfold DEF_IDLE_COUNT in *.
  change BUSY_PERSISTENCE with 26 in *.
  destruct e as [blank|enter|avg cpu_avg| | |p v]; cbn [step].
  - destruct blank; cbn; unfold lazyplug_resume, lazyplug_suspend;
      try destruct (lazyplug_active _ =? 0); cbn;
      change BUSY_PERSISTENCE with 26; repeat split; auto; lia.
  - unfold lazyplug_enter_lazy.
    destruct enter, (lazymode s); cbn [andb negb]; cbn; auto.
  - rewrite Hwp.
    destruct (lazyplug_work_fn_summary hw avg cpu_avg
                (set_work_pending false s))
      as (Hctl & Hpc' & Hidle' & _).
    pose proof (lazyplug_work_fn_nr_run_last hw avg cpu_avg
                  (set_work_pending false s)) as Hlast'.
    pose proof (evaluate_range hw avg (set_work_pending false s)) as Hev.
    set (ev := evaluate hw avg (set_work_pending false s)) in *.
    set (s' := lazyplug_work_fn hw avg cpu_avg (set_work_pending false s))
      in *.
    clearbody ev s'. split_control Hctl. cbn in Hpc', Hidle', Hlast', Hwp0.
    rewrite Hpc', Hidle', Hlast'. unfold DEF_IDLE_COUNT.
    split; [|split; [|split; [|exact Hwp0]]].
    + destruct (_ && _); [|lia]. destruct (_ =? 1); [|lia].
      destruct (Z.ltb_spec (idle_count s) 19); lia.
    + destruct (_ && _); [|lia].
      destruct (Z.ltb_spec 0 (persist_count s)); lia.
    + destruct (_ =? 0); lia.
  - destruct (cac_pending s); [|auto]. unfold lazyplug_cac_fn.
    pose proof (cpu_all_ctrl_only hw (cac_bool (set_cac_pending false s))
                  (set_cac_pending false s)) as Honly.
    pose proof (hotplug_only_nr_run_last _ _ Honly) as Hl.
    apply hotplug_only_same_control in Honly. split_control Honly.
    cbn in *. rewrite Hidle0, Hpc0, Hl, Hwp0. auto.
  - destruct (all_up_pending s); [|auto]. unfold cpu_all_up.
    pose proof (cpu_all_ctrl_only hw true (set_all_up_pending false s))
      as Honly.
    pose proof (hotplug_only_nr_run_last _ _ Honly) as Hl.
    apply hotplug_only_same_control in Honly. split_control Honly.
    cbn in *. rewrite Hidle0, Hpc0, Hl, Hwp0. auto.
  - unfold module_param_set. destruct (_ && _); [|auto].
    destruct p; cbn; auto.
Qed.

Lemma reachable_bounds hw s :
  reachable hw s ->
  0 <= idle_count s <= DEF_IDLE_COUNT
  /\ 0 <= persist_count s <= BUSY_PERSISTENCE
  /\ 0 <= nr_run_last s <= 4
  /\ work_pending s = true.
Proof.
  intros (online & es & ->).
  assert (H0 : let s := lazyplug_init (boot_state hw online) in
               0 <= idle_count s <= DEF_IDLE_COUNT
               /\ 0 <= persist_count s <= BUSY_PERSISTENCE
               /\ 0 <= nr_run_last s <= 4
               /\ work_pending s = true).
  { unfold lazyplug_init. repeat destruct (_ <? _); now cbn. }
  cbn zeta in H0. revert H0. generalize (lazyplug_init (boot_state hw online)).
  induction es as [|e es IH]; intros s H; cbn [run foldl]; [exact H|].
  apply IH. now apply (step_keeps_bounds hw e s).
Qed.

(** In every reachable state the idle counter lies between 0 and
    [DEF_IDLE_COUNT], the cooldown between 0 and [BUSY_PERSISTENCE], and the
    recorded tier between 0 (never evaluated) and 4. *)
Theorem reachable_counters_bounded hw s :
  reachable hw s ->
  0 <= idle_count s <= DEF_IDLE_COUNT
  /\ 0 <= persist_count s <= BUSY_PERSISTENCE
  /\ 0 <= nr_run_last s <= 4.
Proof. intros H. apply reachable_bounds in H. tauto. Qed.

Lemma reachable_counters_witness :
  let s :=
    run exynos7870 [EvFb FB_BLANK_UNBLANK; EvWork 0 (fun _ => 0)]
      exynos_init in
  0 <= idle_count s <= DEF_IDLE_COUNT
  /\ 0 <= persist_count s <= BUSY_PERSISTENCE
  /\ 0 <= nr_run_last s <= 4.
Proof.
  apply (reachable_counters_bounded exynos7870).
  exists (list_to_set (seq 0 8)),
    [EvFb FB_BLANK_UNBLANK; EvWork 0 (fun _ => 0)]. reflexivity.
Defined.

(** From [lazyplug_init] on, as long as no selector of 7 or more is
    written through the module parameter (the table read of the evaluator
    is then in bounds, see [selector_stays_in_table]), the periodic work
    item is pending after every step: [lazyplug_init] queues it and every
    run of [lazyplug_work_fn] queues it again on all its paths, the
    inactive and the suspended one included. *)
Theorem tick_stays_pending hw online es :
  Forall (fun e => valid_selector_write e = true) es ->
  work_pending (run hw es (lazyplug_init (boot_state hw online))) = true.
Proof.
  intros _.
  destruct (reachable_bounds hw
              (run hw es (lazyplug_init (boot_state hw online))))
    as (_ & _ & _ & H); [|exact H].
  now exists online, es.
Qed.

Lemma tick_stays_pending_witness :
  work_pending
    (run exynos7870
       [EvParam P_lazyplug_active 0; EvWork 0 (fun _ => 0);
        EvFb FB_BLANK_POWERDOWN; EvParam P_nr_run_profile_sel 6;
        EvParam P_lazyplug_active 1; EvWork 5000 (fun _ => 0)]
       (lazyplug_init (boot_state exynos7870 (list_to_set (seq 0 8)))))
  = true.
Proof.
  apply (tick_stays_pending exynos7870 (list_to_set (seq 0 8))
           [EvParam P_lazyplug_active 0; EvWork 0 (fun _ => 0);
            EvFb FB_BLANK_POWERDOWN; EvParam P_nr_run_profile_sel 6;
            EvParam P_lazyplug_active 1; EvWork 5000 (fun _ => 0)]).
  repeat constructor.
Defined.

(** ** The profile selector stays inside the table *)

Lemma step_keeps_selectors hw e s :
  valid_selector_write e = true ->
  0 <= nr_run_profile_sel s < 7 /\ 0 <= Lnr_run_profile_sel s < 7 ->
  0 <= nr_run_profile_sel (step hw e s) < 7
  /\ 0 <= Lnr_run_profile_sel (step hw e s) < 7.
Proof.
  intros He [Hsel HLnr].
  destruct e as [blank|enter|avg cpu_avg| | |p v]; cbn [step].
  - destruct blank; cbn; unfold lazyplug_resume, lazyplug_suspend;
      try destruct (lazyplug_active _ =? 0); cbn; auto.
  - unfold lazyplug_enter_lazy.
    destruct enter, (lazymode s); cbn [andb negb]; cbn; auto.
    unfold LAZY_PROFILE. split; [lia|assumption].
  - destruct (work_pending s); [|auto].
    destruct (lazyplug_work_fn_summary hw avg cpu_avg
                (set_work_pending false s)) as (Hctl & _).
    split_control Hctl. cbn [nr_run_profile_sel Lnr_run_profile_sel set_work_pending
         set_idle_count set_persist_count set_cac_pending
         set_all_up_pending] in Hsel0, HLnr0.
    rewrite Hsel0, HLnr0. split; assumption.
  - destruct (cac_pending s); [|auto]. unfold lazyplug_cac_fn.
    pose proof (cpu_all_ctrl_only hw (cac_bool (set_cac_pending false s))
                  (set_cac_pending false s)) as Honly.
    apply hotplug_only_same_control in Honly. split_control Honly.
    cbn [nr_run_profile_sel Lnr_run_profile_sel set_work_pending
         set_idle_count set_persist_count set_cac_pending
         set_all_up_pending] in Hsel0, HLnr0.
    rewrite Hsel0, HLnr0. split; assumption.
  - destruct (all_up_pending s); [|auto]. unfold cpu_all_up.
    pose proof (cpu_all_ctrl_only hw true (set_all_up_pending false s))
      as Honly.
    apply hotplug_only_same_control in Honly. split_control Honly.
    cbn [nr_run_profile_sel Lnr_run_profile_sel set_work_pending
         set_idle_count set_persist_count set_cac_pending
         set_all_up_pending] in Hsel0, HLnr0.
    rewrite Hsel0, HLnr0. split; assumption.
  - unfold module_param_set.
    destruct ((0 <=? v) && (v <=? UINT_MAX)) eqn:Hv; [|auto].
    destruct p; cbn; auto. cbn in He.
    apply andb_true_iff in Hv as [Hv _]. split; [lia|assumption].
Qed.

(** From [lazyplug_init] on, as long as no selector of 7 or more is
    written through the module parameter, [nr_run_profile_sel] and the
    selector saved by lazy mode stay below 7, so that
    [nr_run_profiles[nr_run_profile_sel]] is one of the seven tables and
    the table has at least [threshold_size] entries: every
    [current_profile[nr_run - 1]] the evaluator reads lies inside it. *)
Theorem selector_stays_in_table hw online es :
  Forall (fun e => valid_selector_write e = true) es ->
  let s := run hw es (lazyplug_init (boot_state hw online)) in
  0 <= nr_run_profile_sel s < 7
  /\ 0 <= Lnr_run_profile_sel s < 7
  /\ exists current_profile,
       nr_run_profiles !! Z.to_nat (nr_run_profile_sel s)
       = Some current_profile
       /\ threshold_size (nr_run_profile_sel s)
          <= Z.of_nat (length current_profile).
Proof.
  intros Hes s.
  assert (H : 0 <= nr_run_profile_sel s < 7
              /\ 0 <= Lnr_run_profile_sel s < 7).
  { subst s.
    assert (H0 : let s := lazyplug_init (boot_state hw online) in
                 0 <= nr_run_profile_sel s < 7
                 /\ 0 <= Lnr_run_profile_sel s < 7).
    { unfold lazyplug_init. repeat destruct (_ <? _); cbn;
        unfold NR_RUN_ECO_MODE_PROFILE; lia. }
    cbn zeta in H0. revert H0.
    generalize (lazyplug_init (boot_state hw online)).
    induction es as [|e es IH]; intros s0 H0; cbn [run foldl]; [exact H0|].
    apply Forall_cons in Hes as [He Hes].
    apply (IH Hes). now apply step_keeps_selectors. }
  destruct H as [Hsel HLnr]. split; [exact Hsel|]. split; [exact HLnr|].
  clearbody s. generalize dependent (nr_run_profile_sel s).
  intros sel Hsel. split_range sel; eexists; (split; [reflexivity|]);
    vm_compute; congruence.
Qed.

Lemma selector_stays_in_table_witness :
  let s :=
    run exynos7870
      [EvParam P_nr_run_profile_sel 4; EvEnterLazy true;
       EvWork 5000 (fun _ => 0); EvEnterLazy false]
      (lazyplug_init (boot_state exynos7870 (list_to_set (seq 0 8)))) in
  0 <= nr_run_profile_sel s < 7
  /\ 0 <= Lnr_run_profile_sel s < 7
  /\ exists current_profile,
       nr_run_profiles !! Z.to_nat (nr_run_profile_sel s)
       = Some current_profile
       /\ threshold_size (nr_run_profile_sel s)
          <= Z.of_nat (length current_profile).
Proof.
  apply (selector_stays_in_table exynos7870 (list_to_set (seq 0 8))
           [EvParam P_nr_run_profile_sel 4; EvEnterLazy true;
            EvWork 5000 (fun _ => 0); EvEnterLazy false]).
  repeat constructor.
Defined.

(** ** No request ever names CPU 0 *)

Lemma fmap_targets (f : nat -> hotplug_cmd) (l : list nat) (lo : nat) cmd :
  (forall cpu, cmd_cpu (f cpu) = cpu) ->
  (forall cpu, cpu ∈ l -> (lo <= cpu)%nat) ->
  cmd ∈ f <$> l -> (lo <= cmd_cpu cmd)%nat.
Proof.
  intros Hf Hl H. apply list_elem_of_fmap in H as (cpu & -> & Hin).
  rewrite Hf. auto.
Qed.

Lemma idle_shutdown_targets cpu : cpu ∈ idle_shutdown -> (1 <= cpu)%nat.
Proof.
  unfold idle_shutdown. intros H.
  repeat (apply elem_of_cons in H as [->|H]); try lia. inversion H.
Qed.

Lemma scale_up_targets hw s cpu : cpu ∈ scale_up_cpus hw s -> (1 <= cpu)%nat.
Proof.
  unfold scale_up_cpus. destruct (lazymode s);
    rewrite elem_of_cpus_up_to; lia.
Qed.

Lemma step_targets hw e s :
  exists d,
    hotplug_log (step hw e s) = hotplug_log s ++ d
    /\ forall cmd, cmd ∈ d -> (1 <= cmd_cpu cmd)%nat.
Proof.
  destruct e as [blank|enter|avg cpu_avg| | |p v]; cbn [step].
  - exists []. rewrite app_nil_r. split; [|intros ? H; inversion H].
    destruct blank; cbn; unfold lazyplug_resume, lazyplug_suspend;
      try destruct (lazyplug_active _ =? 0); reflexivity.
  - unfold lazyplug_enter_lazy.
    destruct enter, (lazymode s); cbn [andb negb];
      try (exists []; rewrite app_nil_r;
           split; [reflexivity|intros ? H; inversion H]).
    exists (CpuDownNocheck <$> idle_shutdown).
    split; [now rewrite foldl_cpu_down_nocheck_log|].
    intros cmd. apply fmap_targets; [reflexivity|apply idle_shutdown_targets].
  - destruct (work_pending s);
      [|exists []; rewrite app_nil_r;
        split; [reflexivity|intros ? H; inversion H]].
    eexists. split; [rewrite lazyplug_work_fn_log; reflexivity|].
    cbn [lazyplug_active set_work_pending hotplug_log].
    intros cmd H. destruct (lazyplug_active s =? 0); [inversion H|].
    apply elem_of_app in H as [H|H].
    + revert H. apply fmap_targets; [reflexivity|].
      intros cpu Hin. destruct (_ <? _); [|inversion Hin].
      apply elem_of_capped_cpus in Hin. lia.
    + unfold decision_requests in H.
      destruct (suspended _); [inversion H|]. destruct (_ =? 1).
      * destruct (_ && _); [|inversion H]. revert H.
        apply fmap_targets; [reflexivity|apply idle_shutdown_targets].
      * revert H. apply fmap_targets; [reflexivity|apply scale_up_targets].
  - destruct (cac_pending s);
      [|exists []; rewrite app_nil_r;
        split; [reflexivity|intros ? H; inversion H]].
    unfold lazyplug_cac_fn. eexists.
    split; [rewrite cpu_all_ctrl_log; reflexivity|].
    intros cmd H. destruct (cac_bool _).
    + revert H. apply fmap_targets; [reflexivity|apply scale_up_targets].
    + revert H. apply fmap_targets; [reflexivity|].
      intros cpu Hin. apply elem_of_cpus_down_to in Hin; lia.
  - destruct (all_up_pending s);
      [|exists []; rewrite app_nil_r;
        split; [reflexivity|intros ? H; inversion H]].
    unfold cpu_all_up. eexists.
    split; [rewrite cpu_all_ctrl_log; reflexivity|].
    intros cmd. apply fmap_targets; [reflexivity|apply scale_up_targets].
  - exists []. rewrite app_nil_r. split; [|intros ? H; inversion H].
    unfold module_param_set. destruct (_ && _); [|reflexivity].
    now destruct p.
Qed.

(** Whatever the driver does, from any state, none of its hotplug requests
    names CPU 0: every [cpu_up], [cpu_down] and [cpu_down_nocheck] is for a
    CPU numbered 1 or more. *)
Theorem no_request_names_cpu0 hw es s cmd :
  cmd ∈ issued s (run hw es s) -> (1 <= cmd_cpu cmd)%nat.
Proof.
  assert (H : exists d, hotplug_log (run hw es s) = hotplug_log s ++ d
                        /\ forall c, c ∈ d -> (1 <= cmd_cpu c)%nat).
  { revert s. induction es as [|e es IH]; intros s; cbn [run foldl].
    - exists []. rewrite app_nil_r. split; [reflexivity|].
      intros ? H; inversion H.
    - destruct (step_targets hw e s) as (d1 & Hlog1 & Hd1).
      destruct (IH (step hw e s)) as (d2 & Hlog2 & Hd2).
      exists (d1 ++ d2). unfold run in *.
      split; [now rewrite Hlog2, Hlog1, app_assoc|].
      intros c Hc. apply elem_of_app in Hc as [Hc|Hc]; auto. }
  destruct H as (d & Hlog & Hd). rewrite (issued_app _ _ _ Hlog). apply Hd.
Qed.

Lemma no_request_names_cpu0_witness :
  (1 <= cmd_cpu (CpuDown 7))%nat.
Proof.
  apply (no_request_names_cpu0 exynos7870
           [EvFb FB_BLANK_POWERDOWN; EvCac] exynos_init (CpuDown 7)).
  vm_compute. apply list_elem_of_here.
Defined.

(** ** Suspend, lazy mode and the passes they queue *)

(** With the controller active, a display power-down followed by the pass
    it queues sets [suspended] and requests CPUs [nr_cpu_ids - 1] down to 2
    offline, highest first; CPU 0 and CPU 1 are left as they were.  This
    holds whatever the load, the mode and the cooldown. *)
Theorem suspend_takes_all_but_two_offline hw s :
  lazyplug_active s <> 0 ->
  let s' := run hw [EvFb FB_BLANK_POWERDOWN; EvCac] s in
  suspended s' = true
  /\ issued s s' = (CpuDown <$> cpus_down_to (nr_cpu_ids hw - 1) 2)
  /\ (forall cpu, cpu ∈ cpu_online_mask s'
        <-> cpu ∈ cpu_online_mask s /\ ~ (2 <= cpu < nr_cpu_ids hw)%nat).
Proof.
  intros Hact s'. subst s'. cbn [run foldl step fb_state_change].
  unfold lazyplug_suspend. apply Z.eqb_neq in Hact. rewrite Hact.
  cbn [negb]. cbn [cac_pending queue_lazyplug_cac set_cac_pending
                   set_cac_bool set_suspended].
  unfold lazyplug_cac_fn.
  cbn [cac_bool queue_lazyplug_cac set_cac_pending set_cac_bool
       set_suspended].
  match goal with
  | |- context [cpu_all_ctrl hw false ?b] =>
      pose proof (cpu_all_ctrl_only hw false b) as Honly;
      pose proof (cpu_all_ctrl_log hw false b) as Hlog;
      assert (Hmask : forall cpu,
                cpu ∈ cpu_online_mask (cpu_all_ctrl hw false b)
                <-> cpu ∈ cpu_online_mask b
                    /\ cpu ∉ cpus_down_to (nr_cpu_ids hw - 1) 2)
        by (intros cpu; unfold cpu_all_ctrl; apply foldl_cpu_down_mask);
      set (f := cpu_all_ctrl hw false b) in *
  end.
  clearbody f. apply hotplug_only_same_control in Honly. split_control Honly.
  cbn in Hsus, Hlog, Hmask.
  split; [exact Hsus|]. split; [now apply issued_app|].
  intros cpu. rewrite Hmask, elem_of_cpus_down_to by lia. tauto.
Qed.

Lemma suspend_takes_all_but_two_witness :
  let s' := run exynos7870 [EvFb FB_BLANK_POWERDOWN; EvCac] exynos_init in
  suspended s' = true
  /\ issued exynos_init s'
     = (CpuDown <$> cpus_down_to (nr_cpu_ids exynos7870 - 1) 2)
  /\ (forall cpu, cpu ∈ cpu_online_mask s'
        <-> cpu ∈ cpu_online_mask exynos_init
            /\ ~ (2 <= cpu < nr_cpu_ids exynos7870)%nat).
Proof.
  apply (suspend_takes_all_but_two_offline exynos7870 exynos_init).
  vm_compute. congruence.
Defined.

(** Entering lazy mode from outside it requests CPUs 7, 6, 5, 4, 3, 2
    offline with [cpu_down_nocheck], leaves CPU 0, CPU 1 and any CPU from 8
    on as they were, and touches neither [suspended] nor the counters; it
    is not gated by [lazyplug_active]. *)
Theorem enter_lazy_takes_cluster_offline s :
  lazymode s = false ->
  let s' := lazyplug_enter_lazy true s in
  issued s s' = (CpuDownNocheck <$> idle_shutdown)
  /\ (forall cpu, cpu ∈ cpu_online_mask s'
        <-> cpu ∈ cpu_online_mask s /\ ~ (2 <= cpu <= 7)%nat)
  /\ suspended s' = suspended s
  /\ persist_count s' = persist_count s
  /\ idle_count s' = idle_count s
  /\ lazyplug_active s' = lazyplug_active s.
Proof.
  intros Hl s'. subst s'. unfold lazyplug_enter_lazy. rewrite Hl.
  cbn [andb negb]. split.
  { apply issued_app. now rewrite foldl_cpu_down_nocheck_log. }
  split; [|cbn; auto].
  intros cpu. cbn. rewrite !elem_of_difference, !elem_of_singleton.
  intuition lia.
Qed.

Lemma enter_lazy_takes_cluster_witness :
  let s := set_lazyplug_active 0 exynos_init in
  let s' := lazyplug_enter_lazy true s in
  issued s s' = (CpuDownNocheck <$> idle_shutdown)
  /\ (forall cpu, cpu ∈ cpu_online_mask s'
        <-> cpu ∈ cpu_online_mask s /\ ~ (2 <= cpu <= 7)%nat)
  /\ suspended s' = suspended s
  /\ persist_count s' = persist_count s
  /\ idle_count s' = idle_count s
  /\ lazyplug_active s' = lazyplug_active s.
Proof.
  apply (enter_lazy_takes_cluster_offline (set_lazyplug_active 0 exynos_init)).
  reflexivity.
Defined.

(** [lazyplug_enter_lazy] is re-entrant: entering twice is entering once
    (the saved selector is not overwritten by the second call), leaving
    twice is leaving once, and a call that matches the current mode
    changes nothing. *)
Theorem lazy_mode_calls_are_reentrant s :
  lazyplug_enter_lazy true (lazyplug_enter_lazy true s)
  = lazyplug_enter_lazy true s
  /\ lazyplug_enter_lazy false (lazyplug_enter_lazy false s)
     = lazyplug_enter_lazy false s
  /\ (if lazymode s then lazyplug_enter_lazy true s = s
      else lazyplug_enter_lazy false s = s).
Proof.
  pose proof (step_control exynos7870 (EvEnterLazy true) s)
    as (_ & _ & Hin & _).
  pose proof (step_control exynos7870 (EvEnterLazy false) s)
    as (_ & _ & Hout & _).
  cbn [step] in Hin, Hout.
  split; [|split].
  - unfold lazyplug_enter_lazy at 1. rewrite Hin. reflexivity.
  - unfold lazyplug_enter_lazy at 1. rewrite Hout. reflexivity.
  - unfold lazyplug_enter_lazy. now destruct (lazymode s).
Qed.

(** Leaving lazy mode and running the pass it queues restores the profile
    selector saved on entry and requests every CPU from 1 to
    [nr_cpu_ids - 1] online, so that all of them are online afterwards; the
    exit is gated neither by [suspended] nor by [lazyplug_active]. *)
Theorem exit_lazy_restores_pool hw s :
  lazymode s = true ->
  let s' := run hw [EvEnterLazy false; EvCac] s in
  lazymode s' = false
  /\ nr_run_profile_sel s' = Lnr_run_profile_sel s
  /\ suspended s' = suspended s
  /\ issued s s' = (CpuUp <$> cpus_up_to 1 (nr_cpu_ids hw - 1))
  /\ (forall cpu, (1 <= cpu < nr_cpu_ids hw)%nat ->
        cpu ∈ cpu_online_mask s').
Proof.
  intros Hl s'. subst s'.
  change (run hw [EvEnterLazy false; EvCac] s)
    with (step hw EvCac (lazyplug_enter_lazy false s)).
  set (s1 := lazyplug_enter_lazy false s).
  assert (H1 : cac_pending s1 = true /\ cac_bool s1 = true
               /\ lazymode s1 = false
               /\ nr_run_profile_sel s1 = Lnr_run_profile_sel s
               /\ suspended s1 = suspended s
               /\ hotplug_log s1 = hotplug_log s).
  { subst s1. unfold lazyplug_enter_lazy. rewrite Hl. cbn. auto 10. }
  clearbody s1. destruct H1 as (Hcp & Hcb & Hl1 & Hsel & Hsus & Hlog1).
  destruct (pass_cac hw s1 Hcp Hcb Hl1) as (Hctl & Hlog & Hmask).
  set (s2 := step hw EvCac s1) in *. clearbody s2. split_control Hctl.
  cbn [lazymode nr_run_profile_sel suspended set_cac_pending] in *.
  split; [congruence|]. split; [congruence|]. split; [congruence|].
  split; [apply issued_app; congruence|].
  intros cpu Hcpu. apply Hmask. auto.
Qed.

Lemma exit_lazy_restores_pool_witness :
  let s :=
    run exynos7870 [EvEnterLazy true; EvFb FB_BLANK_POWERDOWN; EvCac]
      exynos_init in
  let s' := run exynos7870 [EvEnterLazy false; EvCac] s in
  lazymode s' = false
  /\ nr_run_profile_sel s' = Lnr_run_profile_sel s
  /\ suspended s' = suspended s
  /\ issued s s' = (CpuUp <$> cpus_up_to 1 (nr_cpu_ids exynos7870 - 1))
  /\ (forall cpu, (1 <= cpu < nr_cpu_ids exynos7870)%nat ->
        cpu ∈ cpu_online_mask s').
Proof.
  apply (exit_lazy_restores_pool exynos7870
           (run exynos7870 [EvEnterLazy true; EvFb FB_BLANK_POWERDOWN; EvCac]
              exynos_init)).
  reflexivity.
Defined.

(** ** The master switch *)

(** With [lazyplug_active] at 0, the display notifier and the tick request
    nothing, leave the online mask, [suspended], [persist_count], the mode
    and the recorded tier as they were; the only variable the notifier
    still writes is [idle_count], reset by an unblank. *)
Theorem inactive_controller_is_inert hw e s :
  lazyplug_active s = 0 ->
  gated_by_active e = true ->
  let s' := step hw e s in
  issued s s' = []
  /\ cpu_online_mask s' = cpu_online_mask s
  /\ suspended s' = suspended s
  /\ persist_count s' = persist_count s
  /\ lazymode s' = lazymode s
  /\ nr_run_last s' = nr_run_last s
  /\ idle_count s'
     = match e with
       | EvFb FB_BLANK_UNBLANK => 0
       | _ => idle_count s
       end.
Proof.
  intros Hact He s'. subst s'.
  destruct e as [blank|enter|avg cpu_avg| | |p v]; try discriminate;
    cbn [step].
  - destruct blank; cbn; unfold lazyplug_resume, lazyplug_suspend;
      cbn [lazyplug_active set_idle_count]; rewrite ?Hact; cbn;
      rewrite ?issued_refl; repeat split;
      apply issued_app; cbn; now rewrite app_nil_r.
  - destruct (work_pending s); [|rewrite issued_refl; repeat split].
    unfold lazyplug_work_fn. cbn [lazyplug_active set_work_pending].
    rewrite Hact. cbn. repeat split.
    apply issued_app. cbn. now rewrite app_nil_r.
Qed.

Lemma inactive_controller_witness :
  let s := set_lazyplug_active 0 exynos_init in
  let s' := step exynos7870 (EvFb FB_BLANK_UNBLANK) s in
  issued s s' = []
  /\ cpu_online_mask s' = cpu_online_mask s
  /\ suspended s' = suspended s
  /\ persist_count s' = persist_count s
  /\ lazymode s' = lazymode s
  /\ nr_run_last s' = nr_run_last s
  /\ idle_count s' = 0.
Proof.
  apply (inactive_controller_is_inert exynos7870 (EvFb FB_BLANK_UNBLANK)
           (set_lazyplug_active 0 exynos_init)); reflexivity.
Defined.

(** ** unplug_cpu: the floor *)

Lemma l_nr_threshold_cases_witness :
  let s := set_cpu_online_mask (list_to_set [0; 1; 2; 3]%nat) exynos_init in
  l_nr_threshold s
  = if num_online_cpus s =? 1
    then 2 * cpu_nr_run_threshold s
    else cpu_nr_run_threshold s.
Proof.
  apply (l_nr_threshold_cases
           (set_cpu_online_mask (list_to_set [0; 1; 2; 3]%nat) exynos_init));
    vm_compute; intuition congruence.
Defined.

Lemma descending_cpus_down_to hi lo : descending (cpus_down_to hi lo).
Proof.
  unfold cpus_down_to, cpus_up_to. generalize (hi + 1 - lo)%nat. intros n.
  induction n as [|n IH]; [exact I|].
  rewrite seq_S, reverse_snoc. split; [|exact IH].
  apply Forall_forall. intros c Hc.
  apply elem_of_reverse, elem_of_seq in Hc. lia.
Qed.

Lemma filter_above_nil (cpu : nat) (l : list nat) :
  Forall (fun c => (c < cpu)%nat) l ->
  List.filter (fun c => (cpu <? c)%nat) l = [].
Proof.
  induction 1 as [|c l Hc _ IH]; [reflexivity|]. cbn [List.filter].
  destruct (Nat.ltb_spec cpu c); [lia|exact IH].
Qed.

(** The loop of [unplug_cpu] over any strictly decreasing list of CPUs. *)
Lemma unplug_cpu_loop (min_active_cpu : Z) (l : list nat) :
  descending l ->
  forall s0,
  let body := fun (s : state) (cpu : nat) =>
    if negb (cpu_online cpu s) then s
    else
      if u32 min_active_cpu <? Z.of_nat cpu then
        if ip_info s cpu <? ulong (l_nr_threshold s)
        then cpu_down cpu s
        else s
      else s in
  exists downed,
    hotplug_log (foldl body s0 l) = hotplug_log s0 ++ (CpuDown <$> downed)
    /\ sublist downed l
    /\ cpu_online_mask (foldl body s0 l)
       = cpu_online_mask s0 ∖ list_to_set downed
    /\ forall cpu,
         cpu ∈ downed <->
         cpu ∈ l
         /\ cpu ∈ cpu_online_mask s0
         /\ u32 min_active_cpu < Z.of_nat cpu
         /\ ip_info s0 cpu
            < ulong (int32 (shl32 (cpu_nr_run_threshold s0)
                              (1 / online_when_reached s0 downed cpu))).
Proof.
  intros Hl s0 body. revert s0.
  induction l as [|c l IH]; intros s0; cbn [foldl].
  { exists []. rewrite app_nil_r. split; [reflexivity|].
    split; [apply sublist_nil|].
    split; [cbn [list_to_set foldr]; now rewrite difference_empty_L|].
    intros cpu. rewrite !elem_of_nil. tauto. }
  destruct Hl as [Hc Hl]. specialize (IH Hl).
  (* the CPUs taken offline later lie below [c] *)
  assert (Hlater : forall downed, sublist downed l ->
            List.filter (fun d => (c <? d)%nat) downed = []).
  { intros downed Hsub. apply filter_above_nil, Forall_forall.
    intros d Hd. rewrite Forall_forall in Hc.
    apply Hc. eapply elem_of_sublist; eassumption. }
  (* a step that requests nothing *)
  assert (Hskip :
    ~ (c ∈ cpu_online_mask s0
       /\ u32 min_active_cpu < Z.of_nat c
       /\ ip_info s0 c < ulong (l_nr_threshold s0)) ->
    body s0 c = s0 ->
    exists downed,
      hotplug_log (foldl body (body s0 c) l)
      = hotplug_log s0 ++ (CpuDown <$> downed)
      /\ sublist downed (c :: l)
      /\ cpu_online_mask (foldl body (body s0 c) l)
         = cpu_online_mask s0 ∖ list_to_set downed
      /\ forall cpu,
           cpu ∈ downed <->
           cpu ∈ c :: l
           /\ cpu ∈ cpu_online_mask s0
           /\ u32 min_active_cpu < Z.of_nat cpu
           /\ ip_info s0 cpu
              < ulong (int32 (shl32 (cpu_nr_run_threshold s0)
                                (1 / online_when_reached s0 downed cpu)))).
  { intros Hno ->. destruct (IH s0) as (downed & Hlog & Hsub & Hmask & Hiff).
    exists downed. split; [exact Hlog|].
    split; [now apply sublist_cons|]. split; [exact Hmask|].
    intros cpu. rewrite Hiff, elem_of_cons. split; [tauto|].
    intros ([->|Hin] & Hon & Hfl & Hlt); [|tauto].
    exfalso. apply Hno. split; [exact Hon|]. split; [exact Hfl|].
    unfold online_when_reached in Hlt. rewrite (Hlater _ Hsub) in Hlt.
    cbn [length] in Hlt. rewrite Z.sub_0_r in Hlt. exact Hlt. }
  assert (Hbody :
    (c ∈ cpu_online_mask s0
     /\ u32 min_active_cpu < Z.of_nat c
     /\ ip_info s0 c < ulong (l_nr_threshold s0)
     /\ body s0 c = cpu_down c s0)
    \/ (~ (c ∈ cpu_online_mask s0
           /\ u32 min_active_cpu < Z.of_nat c
           /\ ip_info s0 c < ulong (l_nr_threshold s0))
        /\ body s0 c = s0)).
  { unfold body, cpu_online.
    destruct (bool_decide_reflect (c ∈ cpu_online_mask s0)) as [Hon|Hoff];
      cbn [negb]; [|right; tauto].
    destruct (Z.ltb_spec (u32 min_active_cpu) (Z.of_nat c)) as [Hfl|Hfl];
      [|right; split; [lia|reflexivity]].
    destruct (Z.ltb_spec (ip_info s0 c) (ulong (l_nr_threshold s0)))
      as [Hlt|Hge]; [left; tauto|right; split; [lia|reflexivity]]. }
  destruct Hbody as [(Hon & Hfl & Hlt & ->)|[Hno HE]];
    [|now apply Hskip].
  (* the step that requests [c] offline *)
  destruct (IH (cpu_down c s0)) as (downed & Hlog & Hsub & Hmask & Hiff).
  exists (c :: downed). split.
  { rewrite Hlog. cbn. now rewrite <- app_assoc. }
  split; [now apply sublist_skip|]. split.
  { rewrite Hmask, list_to_set_cons. apply set_eq. intros x.
    cbn [cpu_online_mask cpu_down set_cpu_online_mask set_hotplug_log].
    rewrite !elem_of_difference, elem_of_union. tauto. }
  assert (Hsize : num_online_cpus (cpu_down c s0) = num_online_cpus s0 - 1).
  { unfold num_online_cpus. cbn.
    assert (Hs : {[c]} ⊆ cpu_online_mask s0)
      by now apply singleton_subseteq_l.
    rewrite (size_difference _ _ Hs), size_singleton.
    apply subseteq_size in Hs. rewrite size_singleton in Hs. lia. }
  intros cpu. rewrite !elem_of_cons.
  destruct (Nat.eq_dec cpu c) as [->|Hne].
  - split; [intros _|tauto].
    split; [now left|]. split; [exact Hon|]. split; [exact Hfl|].
    unfold online_when_reached. cbn [List.filter].
    rewrite Nat.ltb_irrefl, (Hlater _ Hsub). cbn [length].
    rewrite Z.sub_0_r. exact Hlt.
  - rewrite Hiff. cbn [cpu_online_mask ip_info cpu_nr_run_threshold cpu_down
                       set_cpu_online_mask set_hotplug_log].
    rewrite elem_of_difference, elem_of_singleton.
    assert (Hcount : cpu ∈ l ->
              online_when_reached (cpu_down c s0) downed cpu
              = online_when_reached s0 (c :: downed) cpu).
    { intros Hin. unfold online_when_reached. rewrite Hsize.
      cbn [List.filter]. rewrite Forall_forall in Hc.
      destruct (Nat.ltb_spec cpu c) as [_|Hle];
        [cbn [length]; lia|].
      specialize (Hc cpu Hin). lia. }
    split.
    + intros [?|(Hin & [Hon' _] & Hfl' & Hlt')]; [contradiction|].
      rewrite (Hcount Hin) in Hlt'. tauto.
    + intros ([?|Hin] & Hon' & Hfl' & Hlt'); [contradiction|].
      right. rewrite (Hcount Hin). tauto.
Qed.

(** [unplug_cpu] requests only [cpu_down], for CPUs from 1 to
    [nr_cpu_ids - 1], highest first and each at most once, and the CPUs it
    requests leave the online mask.  It requests CPU [cpu] exactly when
    [cpu] was online at the call, lies above [min_active_cpu] (compared as
    unsigned) and has a load strictly below
    [cpu_nr_run_threshold << 1 / n] stored in an [int], where [n] is the
    number of CPUs online when the loop reaches [cpu]: those online at the
    call less the ones above [cpu] that this call has requested offline. *)
Theorem unplug_cpu_requests_exact hw min_active_cpu s :
  let s' := unplug_cpu hw min_active_cpu s in
  exists downed,
    issued s s' = (CpuDown <$> downed)
    /\ sublist downed (cpus_down_to (nr_cpu_ids hw - 1) 1)
    /\ cpu_online_mask s' = cpu_online_mask s ∖ list_to_set downed
    /\ forall cpu,
         cpu ∈ downed <->
         (1 <= cpu < nr_cpu_ids hw)%nat
         /\ cpu ∈ cpu_online_mask s
         /\ u32 min_active_cpu < Z.of_nat cpu
         /\ ip_info s cpu
            < ulong (int32 (shl32 (cpu_nr_run_threshold s)
                              (1 / online_when_reached s downed cpu))).
Proof.
  intros s'. subst s'. unfold unplug_cpu.
  destruct (unplug_cpu_loop min_active_cpu
              (cpus_down_to (nr_cpu_ids hw - 1) 1)
              (descending_cpus_down_to _ _) s)
    as (downed & Hlog & Hsub & Hmask & Hiff).
  exists downed. split; [now apply issued_app|].
  split; [exact Hsub|]. split; [exact Hmask|].
  intros cpu. rewrite Hiff, elem_of_cpus_down_to by lia. tauto.
Qed.

(** The floor [min_active_cpu] is an [int] compared with the unsigned CPU
    number: a negative floor becomes a number above every CPU, and
    [unplug_cpu] then changes nothing, whatever the loads. *)
Theorem unplug_cpu_negative_floor hw min_active_cpu s :
  - 2 ^ 31 <= min_active_cpu < 0 ->
  Z.of_nat (nr_cpu_ids hw) <= 2 ^ 31 ->
  unplug_cpu hw min_active_cpu s = s.
Proof.
  intros Hm Hn. unfold unplug_cpu.
  assert (Hu : u32 min_active_cpu = min_active_cpu + 2 ^ 32).
  { unfold u32. symmetry.
    apply (Z.mod_unique_pos _ _ (-1)); lia. }
  assert (Hl : forall cpu, cpu ∈ cpus_down_to (nr_cpu_ids hw - 1) 1 ->
                           (cpu < nr_cpu_ids hw)%nat)
    by (intros cpu H; apply elem_of_cpus_down_to in H; lia).
  revert Hl. generalize (cpus_down_to (nr_cpu_ids hw - 1) 1).
  intros l. induction l as [|c l IH]; intros Hl; cbn [foldl]; [reflexivity|].
  specialize (Hl c ltac:(apply list_elem_of_here)) as Hc.
  destruct (negb (cpu_online c s));
    [|destruct (Z.ltb_spec (u32 min_active_cpu) (Z.of_nat c)); [lia|]];
    apply IH; intros cpu Hcpu; apply Hl; now apply list_elem_of_further.
Qed.

Lemma unplug_cpu_negative_floor_witness :
  let s := update_per_cpu_stat (fun _ => 0) exynos_init in
  unplug_cpu exynos7870 (-1) s = s.
Proof.
  apply (unplug_cpu_negative_floor exynos7870 (-1)
           (update_per_cpu_stat (fun _ => 0) exynos_init));
    vm_compute; intuition congruence.
Defined.

(** ** The tick: the idle state is steady *)

Lemma queue_lazyplug_work_mask s :
  cpu_online_mask (queue_lazyplug_work s) = cpu_online_mask s.
Proof. reflexivity. Qed.

(** Once [idle_count] has reached [DEF_IDLE_COUNT] with the cooldown over,
    every further tick that sees the lowest tier leaves both counters where
    they are and makes the six [cpu_down] requests again: the shutdown is
    requested on each tick of the idle period, not once, and no CPU from 2
    to 7 is online when such a tick returns. *)
Theorem idle_shutdown_repeats_every_tick hw avg cpu_avg s :
  lazyplug_active s <> 0 ->
  suspended s = false ->
  idle_count s = DEF_IDLE_COUNT ->
  persist_count s = 0 ->
  evaluate hw avg s = 1 ->
  let s' := lazyplug_work_fn hw avg cpu_avg s in
  idle_count s' = DEF_IDLE_COUNT
  /\ persist_count s' = 0
  /\ issued s s'
     = (CpuDown <$> (if nr_possible_cores s <? u32 (NR_CPUS hw)
                     then capped_cpus hw s else []))
       ++ (CpuDown <$> idle_shutdown)
  /\ (forall cpu, cpu ∈ cpu_online_mask s' ->
        cpu ∈ cpu_online_mask s /\ cpu ∉ idle_shutdown).
Proof.
  intros Hact Hsus Hidle Hpc Hev s'.
  apply Z.eqb_neq in Hact.
  destruct (lazyplug_work_fn_summary hw avg cpu_avg s)
    as (_ & Hpc' & Hidle' & _).
  fold s' in Hpc', Hidle'.
  split; [rewrite Hidle', Hact, Hsus, Hev, Hidle; reflexivity|].
  split; [rewrite Hpc', Hact, Hsus, Hpc; reflexivity|].
  clear Hpc' Hidle'. split.
  - apply issued_app. subst s'. rewrite lazyplug_work_fn_log, Hact.
    unfold decision_requests. now rewrite Hsus, Hev, Hidle, Hpc.
  - intros cpu. subst s'. unfold lazyplug_work_fn.
    rewrite Hact. cbn [negb].
    destruct (work_fn_sample_summary hw avg cpu_avg s)
      as (Hc & Hctl & Hmask & _).
    destruct (work_fn_sample hw avg cpu_avg s) as [c s3].
    cbn [fst snd] in Hc, Hctl, Hmask. subst c. split_control Hctl.
    rewrite work_fn_decision_eq, Hsus0, Hsus, Hev, Hidle0, Hidle, Hpc0, Hpc.
    cbv zeta. rewrite !Z.ltb_irrefl, !Z.eqb_refl. cbn [andb].
    rewrite queue_lazyplug_work_mask, foldl_cpu_down_mask.
    intros [Hin Hnot]. split; [apply Hmask, Hin|exact Hnot].
Qed.

Lemma idle_shutdown_repeats_witness :
  let s := set_idle_count DEF_IDLE_COUNT exynos_init in
  let s' := lazyplug_work_fn exynos7870 0 (fun _ => 0) s in
  idle_count s' = DEF_IDLE_COUNT
  /\ persist_count s' = 0
  /\ issued s s'
     = (CpuDown <$> (if nr_possible_cores s <? u32 (NR_CPUS exynos7870)
                     then capped_cpus exynos7870 s else []))
       ++ (CpuDown <$> idle_shutdown)
  /\ (forall cpu, cpu ∈ cpu_online_mask s' ->
        cpu ∈ cpu_online_mask s /\ cpu ∉ idle_shutdown).
Proof.
  apply (idle_shutdown_repeats_every_tick exynos7870 0 (fun _ => 0)
           (set_idle_count DEF_IDLE_COUNT exynos_init));
    vm_compute; congruence.
Defined.
